(** * Session generator bot (tg2.py): admin store, session store and the
      per-user conversation handlers

    A shallow embedding of [src/tg2.py].  The file follows the layout of the
    source: the string operations of the Python runtime the handlers rely
    on, the [DatabaseManager] class, then the [SessionGeneratorBot]
    handlers, and finally the properties of the specification.

    Conventions.
    - User ids, row ids and timestamps are [Z].  [CURRENT_TIMESTAMP] and
      the date of a message are read from the environment as integer
      seconds (SQLite's text form of a timestamp sorts the same way).
    - Text is a [string] whose characters are code points below 256; the
      Python predicates [str.isdigit] and [str.isspace] are reproduced
      exactly on that range.
    - What the outside world does during one update (does SQLite raise,
      what does the provider answer, is the backup delivered, is a text
      accepted) is an [Env] record the handlers read.
    - Updates come from private chats: the chat a reply goes to is the
      id of the sender.
    - A trace lists the calls a handler of [SessionGeneratorBot] makes, its
      own [logger] lines included; what [DatabaseManager] writes to the
      log inside its methods is not part of it.
    - Replies to the user who sent the update reach the transport.  The
      fixed texts are accepted; a text that interpolates a name or the
      text of an exception is parsed as Markdown like the others and can
      be refused, with an exception, when such a string has a character
      of Markdown in it. *)

From Stdlib Require Import ZArith Lia Ascii String DecimalString.
From Stdlib Require Import Sorted DecimalPos.
From stdpp Require Import gmap strings list.

Open Scope Z_scope.

(* ===================================================================== *)
(** ** Python string operations used by the handlers                     *)
(* ===================================================================== *)

Module PyStr.

(** [c.isspace()] on code points below 256. *)
Definition isspace (c : ascii) : bool :=
  let n := N_of_ascii c in
  ((9 <=? n) && (n <=? 13) || (28 <=? n) && (n <=? 32)
   || (n =? 133) || (n =? 160))%N.

(** [c.isdigit()] on code points below 256: the ASCII digits and the
    superscripts two, three and one. *)
Definition isdigit_char (c : ascii) : bool :=
  let n := N_of_ascii c in
  ((48 <=? n) && (n <=? 57) || (n =? 178) || (n =? 179) || (n =? 185))%N.

(** The characters [int()] reads as decimal digits. *)
Definition isdecimal_char (c : ascii) : bool :=
  let n := N_of_ascii c in ((48 <=? n) && (n <=? 57))%N.

Fixpoint lstrip (s : string) : string :=
  match s with
  | EmptyString => EmptyString
  | String c s' => if isspace c then lstrip s' else s
  end.

Fixpoint rstrip (s : string) : string :=
  match s with
  | EmptyString => EmptyString
  | String c s' =>
      match rstrip s' with
      | EmptyString => if isspace c then EmptyString else String c EmptyString
      | r => String c r
      end
  end.

(** [s.strip()] *)
Definition strip (s : string) : string := rstrip (lstrip s).

(** [s.startswith(p)] *)
Definition startswith (p s : string) : bool := String.prefix p s.

(** [s[1:]] *)
Definition tail (s : string) : string :=
  match s with
  | EmptyString => EmptyString
  | String _ s' => s'
  end.

(** [s.replace(c, '')] for a one-character [c]. *)
Fixpoint remove_char (c : ascii) (s : string) : string :=
  match s with
  | EmptyString => EmptyString
  | String d s' =>
      if Ascii.eqb c d then remove_char c s' else String d (remove_char c s')
  end.

Fixpoint all_chars (p : ascii -> bool) (s : string) : bool :=
  match s with
  | EmptyString => true
  | String c s' => p c && all_chars p s'
  end.

(** [s.isdigit()]: at least one character, and every character a digit. *)
Definition isdigit (s : string) : bool :=
  match s with
  | EmptyString => false
  | _ => all_chars isdigit_char s
  end.

(** [s.replace(pat, '')] for a non-empty [pat]: occurrences are found
    from the left and do not overlap.  [skip] counts the characters of
    the occurrence being dropped. *)
Fixpoint remove_sub_from (pat s : string) (skip : nat) : string :=
  match s with
  | EmptyString => EmptyString
  | String c s' =>
      match skip with
      | S k => remove_sub_from pat s' k
      | O =>
          if String.prefix pat s
          then remove_sub_from pat s' (Nat.pred (String.length pat))
          else String c (remove_sub_from pat s' O)
      end
  end.

Definition remove_sub (pat s : string) : string := remove_sub_from pat s O.

(** The blanks [int()] passes over before and after a literal: the ASCII
    whitespace, and the two other spaces below 256, which it reads as a
    blank.  The separators U+001C to U+001F are whitespace for
    [str.strip] only. *)
Definition int_space (c : ascii) : bool :=
  let n := N_of_ascii c in
  ((9 <=? n) && (n <=? 13) || (n =? 32) || (n =? 133) || (n =? 160))%N.

(** The digits of an [int()] literal: decimal digits, single underscores
    allowed between two digits only, then blanks up to the end. *)
Fixpoint int_digits (s : string) (acc : Z) (after_digit : bool) : option Z :=
  match s with
  | EmptyString => if after_digit then Some acc else None
  | String c s' =>
      if isdecimal_char c
      then int_digits s' (10 * acc + (Z.of_N (N_of_ascii c) - 48)) true
      else if Ascii.eqb c "_"
           then if after_digit then int_digits s' acc false else None
           else if after_digit && all_chars int_space s then Some acc
                else None
  end.

(** An optional sign and the digits. *)
Definition int_literal (s : string) : option Z :=
  match s with
  | String "-" body => option_map Z.opp (int_digits body 0 false)
  | String "+" body => int_digits body 0 false
  | body => int_digits body 0 false
  end.

(** [int(s)]: leading blanks, then the literal; [None] stands for
    [ValueError].  (A text of the transport has at most 4096 characters,
    below the digit limit of [int].) *)
Fixpoint int (s : string) : option Z :=
  match s with
  | EmptyString => None
  | String c s' => if int_space c then int s' else int_literal s
  end.

(** [str(n)] *)
Definition str (n : Z) : string := NilZero.string_of_int (Z.to_int n).

(** [bool(s)], as in [a or b] on optional strings. *)
Definition truthy (s : option string) : bool :=
  match s with
  | Some (String _ _) => true
  | _ => false
  end.

(** [a or b] *)
Definition or_else (a : option string) (b : string) : string :=
  match a with
  | Some (String c s) => String c s
  | _ => b
  end.

End PyStr.

(* ===================================================================== *)
(** ** Configuration and Python values                                    *)
(* ===================================================================== *)

Definition MAIN_ADMIN_ID : Z := 7325746010.
Arguments MAIN_ADMIN_ID : simpl never.

(** The values found in the dictionaries the database layer returns. *)
Inductive PyVal : Type :=
| PyNone
| PyInt (n : Z)
| PyStr (s : string).

(** A Python dict with string keys, in insertion order. *)
Definition Dict : Type := list (string * PyVal).

Definition py_opt_str (o : option string) : PyVal :=
  match o with
  | Some s => PyStr s
  | None => PyNone
  end.

(** [d[k]]; every key read by the handlers is present in the rows built
    by the queries, a missing key reads as [PyNone]. *)
Fixpoint item (k : string) (d : Dict) : PyVal :=
  match d with
  | [] => PyNone
  | (k', v) :: d' => if String.eqb k k' then v else item k d'
  end.

Definition keys (d : Dict) : list string := map fst d.
Definition values (d : Dict) : list PyVal := map snd d.

(* ===================================================================== *)
(** ** DatabaseManager                                                    *)
(* ===================================================================== *)

Module Db.

Record AdminRow : Type := {
  user_id : Z;
  username : option string;
  first_name : option string;
  added_by : option Z;
  date_added : Z
}.

Record SessionRow : Type := {
  id : Z;
  session_string : string;
  phone_number : string;
  account_name : option string;
  created_by : option Z;
  date_created : Z
}.

(** The two tables, rows in the order they were written, and the
    AUTOINCREMENT counter of [sessions]. *)
Record Database : Type := {
  admins : list AdminRow;
  sessions : list SessionRow;
  session_seq : Z
}.

Definition empty : Database :=
  {| admins := []; sessions := []; session_seq := 0 |}.

(** The sqlite3 binding raises [OverflowError] on an integer that does
    not fit 64 bits; every method turns that into its failure result. *)
Definition sqlite_int (n : Z) : bool :=
  (- 2 ^ 63 <=? n) && (n <? 2 ^ 63).

Definition sqlite_opt_int (n : option Z) : bool :=
  match n with
  | Some z => sqlite_int z
  | None => true
  end.

(** [ORDER BY]: insertion sort; rows with equal keys stay in the order
    in which they are read. *)
Fixpoint insert_by {A} (le : A -> A -> bool) (x : A) (l : list A) : list A :=
  match l with
  | [] => [x]
  | y :: l' => if le x y then x :: y :: l' else y :: insert_by le x l'
  end.

Fixpoint sort_by {A} (le : A -> A -> bool) (l : list A) : list A :=
  match l with
  | [] => []
  | x :: l' => insert_by le x (sort_by le l')
  end.

Definition has_admin (db : Database) (uid : Z) : bool :=
  existsb (fun r => user_id r =? uid) (admins db).

(** [init_database]: [INSERT OR IGNORE] of the main admin. *)
Definition init_database (now : Z) (db : Database) : Database :=
  if has_admin db MAIN_ADMIN_ID then db
  else {| admins := admins db ++
                    [{| user_id := MAIN_ADMIN_ID;
                        username := Some "main_admin"%string;
                        first_name := Some "Main Admin"%string;
                        added_by := Some MAIN_ADMIN_ID;
                        date_added := now |}];
          sessions := sessions db;
          session_seq := session_seq db |}.

(** In every method [ok] tells whether SQLite answered ([false]: the
    [except] branch runs, which logs the error and returns the failure
    result). *)

Definition is_admin (ok : bool) (db : Database) (uid : Z) : bool :=
  if ok && sqlite_int uid then has_admin db uid else false.

(** [INSERT OR REPLACE]: a row with the same primary key is deleted and
    the new row is appended. *)
Definition add_admin (ok : bool) (now : Z) (db : Database) (uid : Z)
    (uname fname : option string) (by_ : option Z) : bool * Database :=
  if ok && sqlite_int uid && sqlite_opt_int by_ then
    (true,
     {| admins := List.filter (fun r => negb (user_id r =? uid)) (admins db) ++
                  [{| user_id := uid; username := uname; first_name := fname;
                      added_by := by_; date_added := now |}];
        sessions := sessions db;
        session_seq := session_seq db |})
  else (false, db).

(** [DELETE FROM admins WHERE user_id = ? AND user_id != MAIN_ADMIN_ID];
    the result is [cursor.rowcount > 0]. *)
Definition deleted (uid : Z) (r : AdminRow) : bool :=
  (user_id r =? uid) && negb (user_id r =? MAIN_ADMIN_ID).

Definition remove_admin (ok : bool) (db : Database) (uid : Z)
    : bool * Database :=
  if ok && sqlite_int uid then
    (0 <? Z.of_nat (length (List.filter (deleted uid) (admins db))),
     {| admins := List.filter (fun r => negb (deleted uid r)) (admins db);
        sessions := sessions db;
        session_seq := session_seq db |})
  else (false, db).

Definition admin_dict (r : AdminRow) : Dict :=
  [("user_id"%string, PyInt (user_id r));
   ("username"%string, py_opt_str (username r));
   ("first_name"%string, py_opt_str (first_name r));
   ("date_added"%string, PyInt (date_added r))].

(** [SELECT ... FROM admins ORDER BY date_added]: SQLite reads the
    table in the order of its primary key, so that is the order of the
    rows with equal dates. *)
Definition get_admins (ok : bool) (db : Database) : list Dict :=
  if ok then
    map admin_dict
        (sort_by (fun a b => date_added a <=? date_added b)
                 (sort_by (fun a b => user_id a <=? user_id b) (admins db)))
  else [].

Definition save_session (ok : bool) (now : Z) (db : Database)
    (session phone : string) (name : option string) (by_ : option Z)
    : bool * Database :=
  if ok && sqlite_opt_int by_ then
    (true,
     {| admins := admins db;
        sessions := sessions db ++
                    [{| id := session_seq db + 1;
                        session_string := session;
                        phone_number := phone;
                        account_name := name;
                        created_by := by_;
                        date_created := now |}];
        session_seq := session_seq db + 1 |})
  else (false, db).

Definition session_dict (r : SessionRow) : Dict :=
  [("phone"%string, PyStr (phone_number r));
   ("name"%string, py_opt_str (account_name r));
   ("date"%string, PyInt (date_created r))].

(** [if created_by:] is false for [None] and for [0]. *)
Definition creator_filter (created : option Z) : option Z :=
  match created with
  | Some c => if c =? 0 then None else Some c
  | None => None
  end.

Definition created_by_is (c : Z) (r : SessionRow) : bool :=
  match created_by r with
  | Some c' => c' =? c
  | None => false
  end.

(** [SELECT phone_number, account_name, date_created FROM sessions
    [WHERE created_by = ?] ORDER BY date_created DESC], the rows read
    in the order of the primary key. *)
Definition get_sessions (ok : bool) (db : Database) (created : option Z)
    : list Dict :=
  match creator_filter created with
  | Some c =>
      if ok && sqlite_int c then
        map session_dict
            (sort_by (fun a b => date_created b <=? date_created a)
                     (sort_by (fun a b => id a <=? id b)
                              (List.filter (created_by_is c) (sessions db))))
      else []
  | None =>
      if ok then
        map session_dict
            (sort_by (fun a b => date_created b <=? date_created a)
                     (sort_by (fun a b => id a <=? id b) (sessions db)))
      else []
  end.

End Db.

(* ===================================================================== *)
(** ** Updates, replies and the outside world                             *)
(* ===================================================================== *)

Record User : Type := {
  uid : Z;
  u_username : option string;
  u_first_name : option string
}.

(** Forwarding metadata of a message: [forward_from] (older transport
    versions), or [forward_origin] with or without a [sender_user]. *)
Inductive Forward : Type :=
| NotForwarded
| ForwardFrom (sender : User)
| ForwardOrigin (sender_user : option User).

(** The three kinds of update the application dispatches. *)
Inductive Update : Type :=
| StartCommand (user : User)
| CallbackQuery (user : User) (data : string)
| TextMessage (user : User) (text : string) (fwd : Forward) (date : Z).

Definition sender (u : Update) : User :=
  match u with
  | StartCommand user => user
  | CallbackQuery user _ => user
  | TextMessage user _ _ _ => user
  end.

(** An inline button; labels are given without their emoji. *)
Record Button : Type := {
  label : string;
  callback_data : string
}.

Definition Keyboard : Type := list (list Button).

Definition btn (l d : string) : Button := {| label := l; callback_data := d |}.
Definition cancel_kb : Keyboard := [[btn "Cancel" "back_to_main"]].
Definition back_kb : Keyboard := [[btn "Back" "back_to_main"]].
Definition back_to_main_kb : Keyboard := [[btn "Back to Main" "back_to_main"]].

(** The message templates of the bot, each with the values it
    interpolates. *)
Inductive Text : Type :=
| TWelcome (main_admin : bool)
| TChooseOption
| TPhonePrompt
| TNoSessions
| TSessionList (entries : list (string * PyVal * PyVal))
| TAddAdminPrompt
| TNoRemovableAdmins
| TSelectAdminToRemove
| TAdminRemoved (admin_id : Z)
| TRemoveFailed
| TInvalidPhone
| TConnecting
| TCodeSent
| TErrorSendingCode (err : string)
| TInvalidCodeFormat
| TSessionExpired
| TAuthenticating
| TAuthFailed
| T2FARequired
| TInvalidCode
| TVerifying2FA
| TInvalid2FA
| TInvalidUserIdFormat
| TCouldNotExtractId
| TAlreadyAdmin
| TAdminAdded (admin_id : Z) (name username : string)
| TAddFailed
| TSessionGenerated (account phone session : string)
| TBackupAlert (account phone by_name : string) (by_id time : Z)
               (session : string)
| TSelfGenerated (account phone : string) (time : Z) (session : string)
| TSaveFailed
| TGenerationError (err : string).

Inductive LogLevel : Type := Info | Warning | Error.

(** What a handler does to the outside, in order: the calls it makes.  A
    reply, an edit, a copy or a sign-in is listed also when the outside
    answers it with an exception ([Send] says whether the copy was
    delivered); a connection and a code request are listed when they
    succeed. *)
Inductive Effect : Type :=
| Answer                                         (* query.answer() *)
| Reply (chat : Z) (t : Text) (kb : Keyboard)    (* message.reply_text *)
| Edit (chat : Z) (t : Text) (kb : Keyboard)     (* edit_message_text *)
| Send (chat : Z) (t : Text) (delivered : bool)  (* bot.send_message *)
| Log (level : LogLevel) (what : string)         (* logger, in a handler *)
| Connect (client : nat)
| SendCodeRequest (client : nat) (phone : string)
| SignInCode (client : nat) (phone code : string)
| SignInPassword (client : nat) (password : string)
| Disconnect (client : nat).

(** An outbound event: a chat and a text, possibly with buttons. *)
Record Outbound : Type := {
  out_chat : Z;
  out_text : Text;
  out_keyboard : Keyboard
}.

Definition outbound_of (e : Effect) : list Outbound :=
  match e with
  | Reply c t kb | Edit c t kb =>
      [{| out_chat := c; out_text := t; out_keyboard := kb |}]
  | Send c t true => [{| out_chat := c; out_text := t; out_keyboard := [] |}]
  | _ => []
  end.

Definition outbound (tr : list Effect) : list Outbound :=
  concat (map outbound_of tr).

(** The session string a text carries, if any. *)
Definition payload_of (t : Text) : option string :=
  match t with
  | TSessionGenerated _ _ s | TBackupAlert _ _ _ _ _ s
  | TSelfGenerated _ _ _ s => Some s
  | _ => None
  end.

(** The texts of the outbound events for user [c]. *)
Definition shown_to (c : Z) (tr : list Effect) : list Text :=
  map out_text (List.filter (fun o => out_chat o =? c) (outbound tr)).

(** Every [bot.send_message] call of a trace, delivered or not. *)
Definition relay_of (e : Effect) : list (Z * Text * bool) :=
  match e with
  | Send c t d => [(c, t, d)]
  | _ => []
  end.

Definition relays (tr : list Effect) : list (Z * Text * bool) :=
  concat (map relay_of tr).

Inductive ExnClass : Type :=
| SessionPasswordNeededError
| PhoneCodeInvalidError
| PasswordHashInvalidError
| ValueError
| OtherException.

Record Exn : Type := {
  exn_class : ExnClass;
  exn_str : string
}.

(** [client.get_me()] *)
Record Me : Type := {
  me_first_name : option string;
  me_last_name : option string;
  me_username : option string
}.

(** The database calls of the handlers, by call site. *)
Inductive DbCall : Type :=
| GateCheck          (* is_admin of the sender *)
| DuplicateCheck     (* is_admin of the candidate admin *)
| AddAdminCall
| RemoveAdminCall
| GetAdminsCall
| SaveSessionCall
| GetSessionsCall.

(** The answers of the outside world during one update.  An [option Exn]
    is [None] when the call returns. *)
Record Env : Type := {
  now : Z;                              (* CURRENT_TIMESTAMP *)
  storage : DbCall -> bool;             (* does SQLite answer *)
  connect : option Exn;                 (* client.connect() *)
  send_code_request : option Exn;       (* client.send_code_request *)
  sign_in : option Exn;                 (* client.sign_in *)
  is_user_authorized : bool;
  session_save : string;                (* client.session.save() *)
  get_me : Exn + Me;
  send_message : option Exn;            (* bot.send_message to the main admin *)
  parse_entities : Text -> option Exn   (* the transport reading Markdown *)
}.

(** [context.user_data] of one user. *)
Record UserData : Type := {
  expecting_phone : bool;
  expecting_code : bool;
  expecting_2fa : bool;
  expecting_admin_id : bool;
  temp_client : option nat;
  phone : option string
}.

Definition no_user_data : UserData :=
  {| expecting_phone := false; expecting_code := false;
     expecting_2fa := false; expecting_admin_id := false;
     temp_client := None; phone := None |}.

Definition set_expecting_phone (b : bool) (d : UserData) : UserData :=
  {| expecting_phone := b; expecting_code := expecting_code d;
     expecting_2fa := expecting_2fa d;
     expecting_admin_id := expecting_admin_id d;
     temp_client := temp_client d; phone := phone d |}.

Definition set_expecting_code (b : bool) (d : UserData) : UserData :=
  {| expecting_phone := expecting_phone d; expecting_code := b;
     expecting_2fa := expecting_2fa d;
     expecting_admin_id := expecting_admin_id d;
     temp_client := temp_client d; phone := phone d |}.

Definition set_expecting_2fa (b : bool) (d : UserData) : UserData :=
  {| expecting_phone := expecting_phone d; expecting_code := expecting_code d;
     expecting_2fa := b;
     expecting_admin_id := expecting_admin_id d;
     temp_client := temp_client d; phone := phone d |}.

Definition set_expecting_admin_id (b : bool) (d : UserData) : UserData :=
  {| expecting_phone := expecting_phone d; expecting_code := expecting_code d;
     expecting_2fa := expecting_2fa d;
     expecting_admin_id := b;
     temp_client := temp_client d; phone := phone d |}.

Definition set_temp_client (c : option nat) (d : UserData) : UserData :=
  {| expecting_phone := expecting_phone d; expecting_code := expecting_code d;
     expecting_2fa := expecting_2fa d;
     expecting_admin_id := expecting_admin_id d;
     temp_client := c; phone := phone d |}.

Definition set_phone (p : option string) (d : UserData) : UserData :=
  {| expecting_phone := expecting_phone d; expecting_code := expecting_code d;
     expecting_2fa := expecting_2fa d;
     expecting_admin_id := expecting_admin_id d;
     temp_client := temp_client d; phone := p |}.

(** The conversation state the flags encode, read in the order
    [handle_message] tests them. *)
Inductive ConversationState : Type :=
| Idle
| AwaitingPhone
| AwaitingCode
| AwaitingTwoFactor
| AwaitingAdminID.

Definition state_of (d : UserData) : ConversationState :=
  if expecting_phone d then AwaitingPhone
  else if expecting_code d then AwaitingCode
  else if expecting_2fa d then AwaitingTwoFactor
  else if expecting_admin_id d then AwaitingAdminID
  else Idle.

(** The bot, its per-user dictionaries and the provider connections that
    are open. *)
Record World : Type := {
  db : Db.Database;
  user_data : gmap Z UserData;
  open_clients : gset nat;
  next_client : nat
}.

Definition data_of (w : World) (u : Z) : UserData :=
  default no_user_data (user_data w !! u).

(* ===================================================================== *)
(** ** Handlers as state transformers that can raise                      *)
(* ===================================================================== *)

(** A handler body: the effects it performed, the world it left, and
    either the exception that escaped or its result.  As in Python, what
    was done before an exception stays done. *)
Definition M (A : Type) : Type := World -> list Effect * World * (Exn + A).

Definition ret {A} (a : A) : M A := fun w => ([], w, inr a).

Definition bind {A B} (m : M A) (k : A -> M B) : M B := fun w =>
  match m w with
  | (tr, w', inl e) => (tr, w', inl e)
  | (tr, w', inr a) =>
      match k a w' with
      | (tr', w'', r) => (tr ++ tr', w'', r)
      end
  end.

Definition raise {A} (e : Exn) : M A := fun w => ([], w, inl e).

(** [try: m except Exception as e: h e] *)
Definition try_except {A} (m : M A) (h : Exn -> M A) : M A := fun w =>
  match m w with
  | (tr, w', inl e) =>
      match h e w' with
      | (tr', w'', r) => (tr ++ tr', w'', r)
      end
  | done => done
  end.

Declare Scope bot_scope.
Delimit Scope bot_scope with bot.
Notation "'let*' x ':=' m 'in' k" := (bind m (fun x => k))
  (at level 10, x name, m at level 100, k at level 200) : bot_scope.
Notation "m ';;;' k" := (bind m (fun _ => k))
  (at level 100, k at level 200, right associativity) : bot_scope.
Open Scope bot_scope.

Definition emit (e : Effect) : M unit := fun w => ([e], w, inr tt).

Definition log (l : LogLevel) (what : string) : M unit := emit (Log l what).

Definition get_data (u : Z) : M UserData := fun w => ([], w, inr (data_of w u)).

Definition update_data (u : Z) (f : UserData -> UserData) : M unit := fun w =>
  ([], {| db := db w;
          user_data := <[u := f (data_of w u)]> (user_data w);
          open_clients := open_clients w;
          next_client := next_client w |}, inr tt).

Definition read_db {A} (f : Db.Database -> A) : M A := fun w =>
  ([], w, inr (f (db w))).

Definition write_db (f : Db.Database -> bool * Db.Database) : M bool := fun w =>
  ([], {| db := snd (f (db w));
          user_data := user_data w;
          open_clients := open_clients w;
          next_client := next_client w |}, inr (fst (f (db w)))).

(** [TelegramClient(StringSession(), API_ID, API_HASH)]: a fresh client,
    not connected yet. *)
Definition new_client : M nat := fun w =>
  ([], {| db := db w;
          user_data := user_data w;
          open_clients := open_clients w;
          next_client := S (next_client w) |}, inr (next_client w)).

Definition mark_open (c : nat) : M unit := fun w =>
  ([Connect c], {| db := db w;
          user_data := user_data w;
          open_clients := union (singleton c) (open_clients w);
          next_client := next_client w |}, inr tt).

Definition mark_closed (c : nat) : M unit := fun w =>
  ([Disconnect c], {| db := db w;
          user_data := user_data w;
          open_clients := difference (open_clients w) (singleton c);
          next_client := next_client w |}, inr tt).

Definition raising (r : option Exn) (m : M unit) : M unit :=
  match r with
  | Some e => raise e
  | None => m
  end.

Definition main_keyboard_rows (user_id : Z) : Keyboard :=
  [[btn "Generate Session" "generate_session"];
   [btn "List My Sessions" "list_sessions"]] ++
  (if user_id =? MAIN_ADMIN_ID
   then [[btn "Add Admin" "add_admin"]; [btn "Remove Admin" "remove_admin"]]
   else []).

Definition py_truthy (v : PyVal) : bool :=
  match v with
  | PyNone => false
  | PyInt n => negb (n =? 0)
  | PyStr EmptyString => false
  | PyStr _ => true
  end.

(** [str(v)] inside an f-string *)
Definition py_str (v : PyVal) : string :=
  match v with
  | PyNone => "None"
  | PyInt n => PyStr.str n
  | PyStr s => s
  end.

Definition py_is_int (n : Z) (v : PyVal) : bool :=
  match v with
  | PyInt m => m =? n
  | _ => false
  end.

(** Every text is sent with [parse_mode='Markdown'].  These characters
    mean something to its parser: four open an entity, the backslash
    escapes what follows.  The handlers escape none of them. *)
Definition markdown_special (c : ascii) : bool :=
  Ascii.eqb c "_" || Ascii.eqb c "*" || Ascii.eqb c "`" || Ascii.eqb c "["
  || (N_of_ascii c =? 92)%N.

Definition markdown_plain (s : string) : bool :=
  PyStr.all_chars (fun c => negb (markdown_special c)) s.

(** The strings a text interpolates as they are (numbers aside). *)
Definition interpolated (t : Text) : list string :=
  match t with
  | TSessionList entries =>
      concat (map (fun e => [fst (fst e); py_str (snd (fst e)); py_str (snd e)])
                  entries)
  | TErrorSendingCode err | TGenerationError err => [err]
  | TAdminAdded _ name username => [name; username]
  | TSessionGenerated account ph session => [account; ph; session]
  | TBackupAlert account ph by_name _ _ session =>
      [account; ph; by_name; session]
  | TSelfGenerated account ph _ session => [account; ph; session]
  | _ => []
  end.

Section Bot.

Variable env : Env.

(** [self.db.is_admin(user_id)]; the line [DatabaseManager] logs when
    SQLite does not answer is its own and not part of the trace. *)
Definition is_admin (call : DbCall) (user_id : Z) : M bool :=
  read_db (fun d => Db.is_admin (storage env call) d user_id).

Definition client_connect (c : nat) : M unit :=
  raising (connect env) (mark_open c).

Definition client_send_code_request (c : nat) (ph : string) : M unit :=
  raising (send_code_request env) (emit (SendCodeRequest c ph)).

Definition client_sign_in_code (c : nat) (ph code : string) : M unit :=
  emit (SignInCode c ph code) ;;; raising (sign_in env) (ret tt).

Definition client_sign_in_password (c : nat) (password : string) : M unit :=
  emit (SignInPassword c password) ;;; raising (sign_in env) (ret tt).

Definition client_get_me : M Me :=
  match get_me env with
  | inl e => raise e
  | inr me => ret me
  end.

(** [context.bot.send_message(chat_id=..., text=...)] *)
Definition bot_send_message (chat : Z) (t : Text) : M unit :=
  match send_message env with
  | Some e => emit (Send chat t false) ;;; raise e
  | None => emit (Send chat t true)
  end.

(** What the transport answers to a text for the sender: a text whose
    interpolated strings have no character of Markdown is accepted like
    the fixed texts, for any other the transport decides. *)
Definition refused (t : Text) : option Exn :=
  if forallb markdown_plain (interpolated t) then None
  else parse_entities env t.

(** [reply_text] and [edit_text] of a text with interpolated strings: the
    call is made, and raises when the text is refused.  (The texts
    without such strings are sent with [emit].) *)
Definition reply_text (chat : Z) (t : Text) (kb : Keyboard) : M unit :=
  emit (Reply chat t kb) ;;; raising (refused t) (ret tt).

Definition edit_text (chat : Z) (t : Text) (kb : Keyboard) : M unit :=
  emit (Edit chat t kb) ;;; raising (refused t) (ret tt).

Definition get_main_keyboard (user_id : Z) : Keyboard :=
  main_keyboard_rows user_id.

Definition start_command (user : User) : M unit :=
  try_except
    (let* admin := is_admin GateCheck (uid user) in
     if negb admin then log Info "Non-admin user attempted to access bot"
     else emit (Reply (uid user) (TWelcome (uid user =? MAIN_ADMIN_ID))
                      (get_main_keyboard (uid user))))
    (fun _ => log Error "Error in start command").

Definition handle_generate_session (user : User) : M unit :=
  try_except
    (emit (Edit (uid user) TPhonePrompt cancel_kb) ;;;
     update_data (uid user) (set_expecting_phone true))
    (fun _ => log Error "Error in handle_generate_session").

Definition session_entry (s : Dict) : string * PyVal * PyVal :=
  (if py_truthy (item "name" s) then py_str (item "name" s)
   else "Unnamed"%string,
   item "phone" s, item "date" s).

Definition handle_list_sessions (user : User) : M unit :=
  try_except
    (let* sessions :=
       read_db (fun d => Db.get_sessions (storage env GetSessionsCall) d
                                         (Some (uid user))) in
     match sessions with
     | [] => emit (Edit (uid user) TNoSessions back_kb)
     | _ => edit_text (uid user) (TSessionList (map session_entry sessions))
                      back_kb
     end)
    (fun _ => log Error "Error in handle_list_sessions").

Definition handle_add_admin (user : User) : M unit :=
  try_except
    (emit (Edit (uid user) TAddAdminPrompt cancel_kb) ;;;
     update_data (uid user) (set_expecting_admin_id true))
    (fun _ => log Error "Error in handle_add_admin").

Definition remove_button (admin : Dict) : list Button :=
  [btn (if py_truthy (item "first_name" admin)
        then py_str (item "first_name" admin)
        else if py_truthy (item "username" admin)
             then py_str (item "username" admin)
             else "ID: " +:+ py_str (item "user_id" admin))
       ("remove_admin_" +:+ py_str (item "user_id" admin))].

Definition handle_remove_admin (user : User) : M unit :=
  try_except
    (let* admins :=
       read_db (fun d => Db.get_admins (storage env GetAdminsCall) d) in
     let removable_admins :=
       List.filter (fun a => negb (py_is_int MAIN_ADMIN_ID (item "user_id" a)))
                   admins in
     match removable_admins with
     | [] => emit (Edit (uid user) TNoRemovableAdmins back_kb)
     | _ => emit (Edit (uid user) TSelectAdminToRemove
                       (map remove_button removable_admins ++ back_kb))
     end)
    (fun _ => log Error "Error in handle_remove_admin").

Definition confirm_remove_admin (user : User) (admin_id : Z) : M unit :=
  try_except
    (let* removed :=
       write_db (fun d => Db.remove_admin (storage env RemoveAdminCall) d
                                          admin_id) in
     if removed
     then emit (Edit (uid user) (TAdminRemoved admin_id) back_to_main_kb) ;;;
          log Info "Admin removed"
     else emit (Edit (uid user) TRemoveFailed back_kb))
    (fun _ => log Error "Error in confirm_remove_admin").

Definition button_callback (user : User) (data : string) : M unit :=
  try_except
    (emit Answer ;;;
     let* admin := is_admin GateCheck (uid user) in
     if negb admin then ret tt
     else if String.eqb data "generate_session"
     then handle_generate_session user
     else if String.eqb data "list_sessions"
     then handle_list_sessions user
     else if String.eqb data "add_admin" && (uid user =? MAIN_ADMIN_ID)
     then handle_add_admin user
     else if String.eqb data "remove_admin" && (uid user =? MAIN_ADMIN_ID)
     then handle_remove_admin user
     else if PyStr.startswith "remove_admin_" data
     then match PyStr.int (PyStr.remove_sub "remove_admin_" data) with
          | Some admin_id => confirm_remove_admin user admin_id
          | None => raise {| exn_class := ValueError;
                             exn_str := "invalid literal for int()" |}
          end
     else if String.eqb data "back_to_main"
     then emit (Edit (uid user) TChooseOption (get_main_keyboard (uid user)))
     else ret tt)
    (fun _ => log Error "Error in button callback").

(** [complete_session_generation(update, context, client, phone,
    status_msg)]; [date] is [update.message.date]. *)
Definition account_name_of (me : Me) : string :=
  let full := PyStr.strip (PyStr.or_else (me_first_name me) "" +:+ " " +:+
                           PyStr.or_else (me_last_name me) "") in
  match full with
  | EmptyString => PyStr.or_else (me_username me) "Unknown"
  | _ => full
  end.

Definition send_backup (user : User) (account ph session : string)
    (date : Z) : M unit :=
  if negb (uid user =? MAIN_ADMIN_ID)
  then try_except
         (bot_send_message MAIN_ADMIN_ID
            (TBackupAlert account ph
               (PyStr.or_else (u_first_name user) "Unknown")
               (uid user) date session) ;;;
          log Info "Session backup sent to main admin")
         (fun _ => log Warning "Failed to send backup to main admin")
  else try_except
         (bot_send_message MAIN_ADMIN_ID
            (TSelfGenerated account ph date session))
         (fun _ => log Warning "Failed to send self-backup").

Definition complete_session_generation (user : User) (date : Z)
    (client : nat) (ph : string) : M unit :=
  try_except
    (let session := session_save env in
     let* me := client_get_me in
     let account := account_name_of me in
     mark_closed client ;;;
     update_data (uid user) (set_temp_client None) ;;;
     let* success :=
       write_db (fun d => Db.save_session (storage env SaveSessionCall)
                            (now env) d session ph (Some account)
                            (Some (uid user))) in
     if success
     then edit_text (uid user) (TSessionGenerated account ph session)
                    back_to_main_kb ;;;
          send_backup user account ph session date ;;;
          log Info "Session generated"
     else emit (Edit (uid user) TSaveFailed back_to_main_kb))
    (fun e =>
       log Error "Error in complete_session_generation" ;;;
       try_except
         (edit_text (uid user) (TGenerationError (exn_str e)) back_to_main_kb)
         (fun _ => ret tt)).

Definition valid_phone (ph : string) : bool :=
  PyStr.startswith "+" ph &&
  PyStr.isdigit (PyStr.remove_char " " (PyStr.tail ph)).

Definition clean_phone (ph : string) : string :=
  PyStr.remove_char "-" (PyStr.remove_char " " ph).

Definition process_phone_input (user : User) (text : string) : M unit :=
  try_except
    (update_data (uid user) (set_expecting_phone false) ;;;
     let ph := PyStr.strip text in
     if negb (valid_phone ph)
     then emit (Reply (uid user) TInvalidPhone back_to_main_kb)
     else
       let ph := clean_phone ph in
       emit (Reply (uid user) TConnecting []) ;;;
       try_except
         (let* client := new_client in
          client_connect client ;;;
          client_send_code_request client ph ;;;
          update_data (uid user) (set_temp_client (Some client)) ;;;
          update_data (uid user) (set_phone (Some ph)) ;;;
          emit (Edit (uid user) TCodeSent cancel_kb) ;;;
          update_data (uid user) (set_expecting_code true))
         (fun e => edit_text (uid user) (TErrorSendingCode (exn_str e))
                             back_to_main_kb))
    (fun _ => log Error "Error in process_phone_input").

Definition clean_code (text : string) : string :=
  PyStr.strip (PyStr.remove_char " " text).

(** [if not client or not phone] *)
Definition stored_flow (d : UserData) : option (nat * string) :=
  match temp_client d, phone d with
  | Some c, Some (String a s) => Some (c, String a s)
  | _, _ => None
  end.

Definition process_code_input (user : User) (date : Z) (text : string)
    : M unit :=
  try_except
    (update_data (uid user) (set_expecting_code false) ;;;
     let code := clean_code text in
     if negb (PyStr.isdigit code)
     then emit (Reply (uid user) TInvalidCodeFormat back_to_main_kb) ;;;
          update_data (uid user) (set_expecting_code true)
     else
       let* d := get_data (uid user) in
       match stored_flow d with
       | None => emit (Reply (uid user) TSessionExpired back_to_main_kb)
       | Some (client, ph) =>
           emit (Reply (uid user) TAuthenticating []) ;;;
           try_except
             (client_sign_in_code client ph code ;;;
              if is_user_authorized env
              then complete_session_generation user date client ph
              else emit (Edit (uid user) TAuthFailed back_to_main_kb))
             (fun e =>
                match exn_class e with
                | SessionPasswordNeededError =>
                    emit (Edit (uid user) T2FARequired cancel_kb) ;;;
                    update_data (uid user) (set_expecting_2fa true)
                | PhoneCodeInvalidError =>
                    emit (Edit (uid user) TInvalidCode back_to_main_kb) ;;;
                    update_data (uid user) (set_expecting_code true)
                | _ => raise e
                end)
       end)
    (fun _ => log Error "Error in process_code_input").

Definition process_2fa_input (user : User) (date : Z) (password : string)
    : M unit :=
  try_except
    (update_data (uid user) (set_expecting_2fa false) ;;;
     let* d := get_data (uid user) in
     match stored_flow d with
     | None => emit (Reply (uid user) TSessionExpired back_to_main_kb)
     | Some (client, ph) =>
         emit (Reply (uid user) TVerifying2FA []) ;;;
         try_except
           (client_sign_in_password client password ;;;
            if is_user_authorized env
            then complete_session_generation user date client ph
            else emit (Edit (uid user) TAuthFailed back_to_main_kb))
           (fun e =>
              match exn_class e with
              | PasswordHashInvalidError =>
                  emit (Edit (uid user) TInvalid2FA cancel_kb) ;;;
                  update_data (uid user) (set_expecting_2fa true)
              | _ => raise e
              end)
     end)
    (fun _ => log Error "Error in process_2fa_input").

(** The candidate admin read from the message: [inl] is the early
    [ValueError] reply, [inr] the values of [new_admin_id], [username]
    and [first_name]. *)
Definition extract_admin (text : string) (fwd : Forward)
    : unit + (option Z * option string * option string) :=
  match fwd with
  | ForwardFrom s => inr (Some (uid s), u_username s, u_first_name s)
  | ForwardOrigin (Some s) => inr (Some (uid s), u_username s, u_first_name s)
  | ForwardOrigin None => inr (None, None, None)
  | NotForwarded =>
      match PyStr.int (PyStr.strip text) with
      | Some n => inr (Some n, None, None)
      | None => inl tt
      end
  end.

Definition process_admin_id_input (user : User) (text : string)
    (fwd : Forward) : M unit :=
  try_except
    (update_data (uid user) (set_expecting_admin_id false) ;;;
     match extract_admin text fwd with
     | inl _ => emit (Reply (uid user) TInvalidUserIdFormat back_to_main_kb)
     | inr (new_admin_id, uname, fname) =>
         match new_admin_id with
         | None | Some 0 =>
             emit (Reply (uid user) TCouldNotExtractId back_to_main_kb)
         | Some new_id =>
             let* already := is_admin DuplicateCheck new_id in
             if already
             then emit (Reply (uid user) TAlreadyAdmin back_to_main_kb)
             else
               let* success :=
                 write_db (fun d => Db.add_admin (storage env AddAdminCall)
                                      (now env) d new_id uname fname
                                      (Some (uid user))) in
               if success
               then reply_text (uid user)
                      (TAdminAdded new_id (PyStr.or_else fname "Unknown")
                                   (PyStr.or_else uname "None"))
                      back_to_main_kb ;;;
                    log Info "Admin added"
               else emit (Reply (uid user) TAddFailed back_to_main_kb)
         end
     end)
    (fun _ => log Error "Error in process_admin_id_input").

Definition handle_message (user : User) (text : string) (fwd : Forward)
    (date : Z) : M unit :=
  try_except
    (let* admin := is_admin GateCheck (uid user) in
     if negb admin then ret tt
     else
       let* d := get_data (uid user) in
       if expecting_phone d then process_phone_input user text
       else if expecting_code d then process_code_input user date text
       else if expecting_2fa d then process_2fa_input user date text
       else if expecting_admin_id d then process_admin_id_input user text fwd
       else ret tt)
    (fun _ => log Error "Error in handle_message").

(** The application's dispatch of one update to its handler. *)
Definition handle (u : Update) : M unit :=
  match u with
  | StartCommand user => start_command user
  | CallbackQuery user data => button_callback user data
  | TextMessage user text fwd date => handle_message user text fwd date
  end.

Definition trace_of (u : Update) (w : World) : list Effect :=
  fst (fst (handle u w)).

Definition world_after (u : Update) (w : World) : World :=
  snd (fst (handle u w)).

End Bot.

(** A run: updates delivered one after the other, each with the answers
    the outside world gives while it is handled. *)
Fixpoint run (steps : list (Env * Update)) (w : World) : list Effect * World :=
  match steps with
  | [] => ([], w)
  | (env, u) :: rest =>
      let (tr', w'') := run rest (world_after env u w) in
      (trace_of env u w ++ tr', w'')
  end.

(** The world after [init_database] at time [t] on an empty file. *)
Definition initial_world (t : Z) : World :=
  {| db := Db.init_database t Db.empty;
     user_data := empty;
     open_clients := empty;
     next_client := O |}.

(** The clients a trace connected and those it disconnected. *)
Definition connects (tr : list Effect) : list nat :=
  concat (map (fun e => match e with Connect c => [c] | _ => [] end) tr).

Definition disconnects (tr : list Effect) : list nat :=
  concat (map (fun e => match e with Disconnect c => [c] | _ => [] end) tr).

(* ===================================================================== *)
(** ** Sample users, environments and worlds                              *)
(* ===================================================================== *)

Definition main_admin : User :=
  {| uid := MAIN_ADMIN_ID; u_username := Some "main_admin"%string;
     u_first_name := Some "Main Admin"%string |}.

Definition alice : User :=
  {| uid := 1001; u_username := Some "alice"%string;
     u_first_name := Some "Alice"%string |}.

Definition bob : User :=
  {| uid := 1002; u_username := None; u_first_name := Some "Bob"%string |}.

Definition stranger : User :=
  {| uid := 4242; u_username := None; u_first_name := None |}.

(** Everything answers, the provider authorizes at once. *)
Definition calm : Env :=
  {| now := 500;
     storage := fun _ => true;
     connect := None;
     send_code_request := None;
     sign_in := None;
     is_user_authorized := true;
     session_save := "1BVtsOKsecret";
     get_me := inr {| me_first_name := Some "Carol"%string;
                      me_last_name := Some "Doe"%string;
                      me_username := None |};
     send_message := None;
     parse_entities := fun _ => None |}.

Definition with_storage (f : DbCall -> bool) (e : Env) : Env :=
  {| now := now e; storage := f; connect := connect e;
     send_code_request := send_code_request e; sign_in := sign_in e;
     is_user_authorized := is_user_authorized e;
     session_save := session_save e; get_me := get_me e;
     send_message := send_message e; parse_entities := parse_entities e |}.

Definition with_sign_in (r : option Exn) (e : Env) : Env :=
  {| now := now e; storage := storage e; connect := connect e;
     send_code_request := send_code_request e; sign_in := r;
     is_user_authorized := is_user_authorized e;
     session_save := session_save e; get_me := get_me e;
     send_message := send_message e; parse_entities := parse_entities e |}.

Definition with_send_message (r : option Exn) (e : Env) : Env :=
  {| now := now e; storage := storage e; connect := connect e;
     send_code_request := send_code_request e; sign_in := sign_in e;
     is_user_authorized := is_user_authorized e;
     session_save := session_save e; get_me := get_me e;
     send_message := r; parse_entities := parse_entities e |}.

Definition with_send_code_request (r : option Exn) (e : Env) : Env :=
  {| now := now e; storage := storage e; connect := connect e;
     send_code_request := r; sign_in := sign_in e;
     is_user_authorized := is_user_authorized e;
     session_save := session_save e; get_me := get_me e;
     send_message := send_message e; parse_entities := parse_entities e |}.

(** SQLite answers every call except [save_session]. *)
Definition save_fails : Env :=
  with_storage (fun c => match c with SaveSessionCall => false | _ => true end)
               calm.

Definition network_down : Exn :=
  {| exn_class := OtherException; exn_str := "network unreachable" |}.

Definition password_needed : Exn :=
  {| exn_class := SessionPasswordNeededError;
     exn_str := "two-step verification is enabled" |}.

(** The admins table after the main admin added alice and bob. *)
Definition team_db : Db.Database :=
  snd (Db.add_admin true 20 (snd (Db.add_admin true 10 (Db.init_database 0 Db.empty)
                                     1001 (Some "alice"%string)
                                     (Some "Alice"%string) (Some MAIN_ADMIN_ID)))
                    1002 None (Some "Bob"%string) (Some MAIN_ADMIN_ID)).

Definition team_world : World :=
  {| db := team_db; user_data := empty; open_clients := empty;
     next_client := O |}.

(** Alice asks for a session, sends her number, then presses Cancel. *)
Definition alice_cancels : list (Env * Update) :=
  [(calm, CallbackQuery alice "generate_session");
   (calm, TextMessage alice "+15550100" NotForwarded 40);
   (calm, CallbackQuery alice "back_to_main")].

(** Alice has pressed "Generate Session". *)
Definition alice_awaiting_phone : World :=
  world_after calm (CallbackQuery alice "generate_session") team_world.

(** Alice has sent her number and the code was requested. *)
Definition alice_awaiting_code : World :=
  world_after calm (TextMessage alice "+15550100" NotForwarded 40)
              alice_awaiting_phone.

(** Bob has sent number and code, the provider asked for his password. *)
Definition bob_awaiting_2fa : World :=
  snd (run [(calm, CallbackQuery bob "generate_session");
            (calm, TextMessage bob "+15550199" NotForwarded 50);
            (with_sign_in (Some password_needed) calm,
             TextMessage bob "1 2 3 4 5" NotForwarded 51)]
           team_world).

(** The backup cannot be delivered. *)
Definition relay_down : Env := with_send_message (Some network_down) calm.

(** The keys of an entry of a session listing. *)
Definition listing_keys : list string := ["phone"; "name"; "date"]%string.

(** The [user_id] column of a listing. *)
Definition listed_ids (l : list Dict) : list PyVal := map (item "user_id") l.

(* ===================================================================== *)
(** ** Vocabulary of the properties                                       *)
(* ===================================================================== *)

(** The primary keys of the two tables, in storage order. *)
Definition admin_ids (d : Db.Database) : list Z := map Db.user_id (Db.admins d).
Definition session_ids (d : Db.Database) : list Z := map Db.id (Db.sessions d).

(** The rows of the admins table for one user id. *)
Definition rows_of (u : Z) (d : Db.Database) : list Db.AdminRow :=
  List.filter (fun r => Db.user_id r =? u) (Db.admins d).

(** The integer under key [k] of a listing entry. *)
Definition int_item (k : string) (row : Dict) : Z :=
  match item k row with
  | PyInt n => n
  | _ => 0
  end.

(** Session ids grow along the table and stay within the AUTOINCREMENT
    counter. *)
Definition sessions_wf (d : Db.Database) : Prop :=
  StronglySorted Z.lt (session_ids d) /\
  Forall (fun i => i <= Db.session_seq d) (session_ids d).

(** The value of a decimal numeral read from the left on top of [acc]. *)
Fixpoint uint_val (d : Decimal.uint) (acc : Z) : Z :=
  match d with
  | Decimal.Nil => acc
  | Decimal.D0 l => uint_val l (10 * acc)
  | Decimal.D1 l => uint_val l (10 * acc + 1)
  | Decimal.D2 l => uint_val l (10 * acc + 2)
  | Decimal.D3 l => uint_val l (10 * acc + 3)
  | Decimal.D4 l => uint_val l (10 * acc + 4)
  | Decimal.D5 l => uint_val l (10 * acc + 5)
  | Decimal.D6 l => uint_val l (10 * acc + 6)
  | Decimal.D7 l => uint_val l (10 * acc + 7)
  | Decimal.D8 l => uint_val l (10 * acc + 8)
  | Decimal.D9 l => uint_val l (10 * acc + 9)
  end.

(** The characters of [str(n)]: decimal digits and the minus sign. *)
Definition plain_char (c : ascii) : bool :=
  PyStr.isdecimal_char c || Ascii.eqb c "-".

(** The effects and the world a handler body leaves, and its outcome. *)
Definition effects_of {A} (m : M A) (w : World) : list Effect := fst (fst (m w)).
Definition after {A} (m : M A) (w : World) : World := snd (fst (m w)).

(** A user-data update that cannot arm the admin-id prompt. *)
Definition quiet_setter (f : UserData -> UserData) : Prop :=
  forall d, expecting_admin_id d = false -> expecting_admin_id (f d) = false.

(** Effects that carry no text of the user to the provider's code
    request and code sign-in. *)
Definition carries_no_input (e : Effect) : bool :=
  match e with
  | SendCodeRequest _ _ | SignInCode _ _ _ => false
  | _ => true
  end.

(** A number as the provider is asked about it: "+" and then digits. *)
Definition normal_phone (p : string) : bool :=
  match p with
  | String c ds => Ascii.eqb c "+" && PyStr.isdigit ds
  | EmptyString => false
  end.

(** What reaches the provider is validated: code requests carry a
    normal phone number, code sign-ins carry digits. *)
Definition validated (e : Effect) : Prop :=
  match e with
  | SendCodeRequest _ ph => normal_phone ph = true
  | SignInCode _ _ code => PyStr.isdigit code = true
  | _ => True
  end.

(** A handler body all of whose effects satisfy [P] and whose change of
    the world is within [R], from every world. *)
Definition obeys (P : Effect -> Prop) (R : World -> World -> Prop) {A}
    (m : M A) : Prop :=
  forall w, Forall P (effects_of m w) /\ R w (after m w).

(** Only the main admin has the admin-id prompt armed. *)
Definition prompt_reserved (w : World) : Prop :=
  forall v, v <> MAIN_ADMIN_ID -> expecting_admin_id (data_of w v) = false.

(** No user id became an admin between two worlds. *)
Definition no_new_admin (w w' : World) : Prop :=
  forall x, Db.has_admin (db w') x = true -> Db.has_admin (db w) x = true.

(** The stored sessions of [w] are the first rows of those of [w']. *)
Definition sessions_extended (w w' : World) : Prop :=
  exists l, Db.sessions (db w') = Db.sessions (db w) ++ l.

(** Every update of a run comes from someone else than the main admin. *)
Definition all_plain (steps : list (Env * Update)) : Prop :=
  Forall (fun step => uid (sender (snd step)) <> MAIN_ADMIN_ID) steps.

(* ===================================================================== *)
(** ** More sample worlds and answers                                     *)
(* ===================================================================== *)

(** SQLite answers nothing. *)
Definition storage_down : Env := with_storage (fun _ => false) calm.



(** The main admin has pressed "Add Admin". *)
Definition main_awaiting_admin_id : World :=
  world_after calm (CallbackQuery main_admin "add_admin") team_world.

(** Bob, asked for his password, starts over and completes a generation:
    the password prompt of the first attempt is still armed, the client is
    gone. *)
Definition bob_2fa_without_client : World :=
  snd (run [(calm, CallbackQuery bob "generate_session");
            (calm, TextMessage bob "+15550199" NotForwarded 53);
            (calm, TextMessage bob "1 2 3 4 5" NotForwarded 54)]
           bob_awaiting_2fa).

(** The transport cannot parse a text. *)
Definition bad_request : Exn :=
  {| exn_class := OtherException; exn_str := "Can't parse entities" |}.

(** The account that signs in is called "carol_doe", and the transport
    refuses what it cannot parse. *)
Definition underscore_account : Env :=
  {| now := 500;
     storage := fun _ => true;
     connect := None;
     send_code_request := None;
     sign_in := None;
     is_user_authorized := true;
     session_save := "1BVtsOKsecret";
     get_me := inr {| me_first_name := Some "carol_doe"%string;
                      me_last_name := None;
                      me_username := None |};
     send_message := None;
     parse_entities := fun _ => Some bad_request |}.

(** Alice generates a session from the button to the code. *)
Definition alice_generates : list (Env * Update) :=
  [(calm, CallbackQuery alice "generate_session");
   (calm, TextMessage alice "+15550100" NotForwarded 60);
   (calm, TextMessage alice "4 6 9 4 9" NotForwarded 61)].

(** A store with a session of alice and a later one of bob. *)
Definition two_sessions_db : Db.Database :=
  snd (Db.save_session true 40
         (snd (Db.save_session true 30 team_db "1BVtsOKsecret" "+15550100"
                               (Some "Carol Doe"%string) (Some 1001)))
         "1AbCdEfsecret" "+15550199" (Some "Dave"%string) (Some 1002)).

(** Bob's row of the admins table. *)
Definition bob_row : Db.AdminRow :=
  {| Db.user_id := 1002; Db.username := None;
     Db.first_name := Some "Bob"%string;
     Db.added_by := Some MAIN_ADMIN_ID; Db.date_added := 20 |}.

(* ===================================================================== *)
(** ** The file pusher (git.py): accounting of push_files                 *)
(* ===================================================================== *)

Module GitHubPusher.

(** A local file as [push_files] sees it: the size [stat()] reports
    ([None]: [stat()] raises) and what [upload_file] answers when it is
    called for this file. *)
Record LocalFile : Type := {
  path : string;
  st_size : option Z;
  upload_file : bool
}.

(** The [results] dictionary. *)
Record Results : Type := {
  success : nat;
  failed : nat;
  skipped : nat;
  total : nat
}.

(** [file_size > 25 * 1024 * 1024]; a failing [stat()] is passed over. *)
Definition too_large (f : LocalFile) : bool :=
  match st_size f with
  | Some n => 25 * 1024 * 1024 <? n
  | None => false
  end.

(** One turn of the [for file_path in files] loop. *)
Definition push_one (r : Results) (f : LocalFile) : Results :=
  if too_large f
  then {| success := success r; failed := failed r;
          skipped := S (skipped r); total := total r |}
  else if upload_file f
       then {| success := S (success r); failed := failed r;
               skipped := skipped r; total := total r |}
       else {| success := success r; failed := S (failed r);
               skipped := skipped r; total := total r |}.

Definition push_files (files : list LocalFile) : Results :=
  fold_left push_one files
            {| success := O; failed := O; skipped := O;
               total := length files |}.

(** The files [upload_file] is called for. *)
Definition uploaded (files : list LocalFile) : list LocalFile :=
  List.filter (fun f => negb (too_large f)) files.

End GitHubPusher.

(** Unfolding one dispatch, and the completion of a generation. *)
Ltac run_handler :=
  unfold trace_of, world_after, handle, start_command, button_callback,
    handle_message, try_except, bind, is_admin, read_db, emit, log, ret;
  cbn [fst snd negb].

Ltac run_completion :=
  unfold complete_session_generation, send_backup, bot_send_message,
    client_get_me, try_except, bind, ret, mark_closed, update_data, write_db,
    log, emit.

(* ===================================================================== *)
(** ** Unit checks of the string operations                               *)
(* ===================================================================== *)

Example strip_example : PyStr.strip "  +1 555 " = "+1 555"%string.
Proof. reflexivity. Qed.

Example int_examples :
  PyStr.int " 42 " = Some 42 /\ PyStr.int "-7" = Some (-7) /\
  PyStr.int "1_000" = Some 1000 /\ PyStr.int "12a" = None /\
  PyStr.int "" = None /\ PyStr.int "1__0" = None.
Proof. repeat split; reflexivity. Qed.

(** [int] passes over blanks, not over everything [strip] removes: the
    unit separator U+001F is whitespace for [strip] only. *)
Example int_blank_examples :
  PyStr.int "12  " = Some 12 /\ PyStr.int "1 2" = None /\
  PyStr.int "+ 1" = None /\
  PyStr.int (String (ascii_of_nat 31) "42") = None /\
  PyStr.int (PyStr.strip (String (ascii_of_nat 31) "42")) = Some 42 /\
  PyStr.int (String (ascii_of_nat 160) "42") = Some 42.
Proof. repeat split; reflexivity. Qed.

Example remove_sub_example :
  PyStr.remove_sub "remove_admin_" "remove_admin_123" = "123"%string.
Proof. reflexivity. Qed.

Example phone_examples :
  valid_phone "+1234567890" = true /\ valid_phone "1234567890" = false /\
  valid_phone "+12a4" = false /\ valid_phone "+" = false /\
  valid_phone "+1 555 0100" = true.
Proof. repeat split; reflexivity. Qed.

Example code_examples :
  clean_code "4 6 9 4 9" = "46949"%string /\
  PyStr.isdigit (clean_code "4 6 9 4 9") = true /\
  PyStr.isdigit (clean_code "abc12") = false /\
  PyStr.isdigit (clean_code "   ") = false.
Proof. repeat split; reflexivity. Qed.

(* ===================================================================== *)
(** ** The admin store                                                    *)
(* ===================================================================== *)

Section Sorting.

Context {A : Type} (le : A -> A -> bool).

Lemma insert_by_perm (x : A) (l : list A) :
  Permutation (Db.insert_by le x l) (x :: l).
Proof.
  induction l as [|y l IH]; simpl.
  - reflexivity.
  - destruct (le x y).
    + reflexivity.
    + rewrite IH. apply perm_swap.
Qed.

Lemma sort_by_perm (l : list A) : Permutation (Db.sort_by le l) l.
Proof.
  induction l as [|x l IH]; simpl.
  - reflexivity.
  - rewrite insert_by_perm. now constructor.
Qed.

Lemma in_sort_by (x : A) (l : list A) : In x (Db.sort_by le l) <-> In x l.
Proof.
  split; apply Permutation_in;
    [apply sort_by_perm | symmetry; apply sort_by_perm].
Qed.

Lemma length_sort_by (l : list A) : length (Db.sort_by le l) = length l.
Proof. apply Permutation_length, sort_by_perm. Qed.

End Sorting.

Lemma has_admin_spec (d : Db.Database) (u : Z) :
  Db.has_admin d u = true <-> exists r, In r (Db.admins d) /\ Db.user_id r = u.
Proof.
  unfold Db.has_admin. rewrite existsb_exists.
  split; intros [r [Hin Hr]]; exists r; split; trivial; lia.
Qed.

(** A missing principal is never an admin, whatever SQLite does: the check
    fails closed. *)
Lemma is_admin_absent (ok : bool) (d : Db.Database) (u : Z) :
  Db.has_admin d u = false -> Db.is_admin ok d u = false.
Proof.
  intros H. unfold Db.is_admin. rewrite H. now destruct (ok && Db.sqlite_int u).
Qed.

Lemma is_admin_storage_down (d : Db.Database) (u : Z) :
  Db.is_admin false d u = false.
Proof. reflexivity. Qed.

(** [remove_admin] keeps every row of the main admin. *)
Lemma remove_admin_keeps_main_row (ok : bool) (d : Db.Database) (u : Z)
    (r : Db.AdminRow) :
  In r (Db.admins d) -> Db.user_id r = MAIN_ADMIN_ID ->
  In r (Db.admins (snd (Db.remove_admin ok d u))).
Proof.
  intros Hin Hr. unfold Db.remove_admin.
  destruct (ok && Db.sqlite_int u); simpl; trivial.
  apply filter_In. split; trivial.
  unfold Db.deleted. now rewrite Hr, Z.eqb_refl, andb_false_r.
Qed.

Lemma listed_ids_spec (d : Db.Database) (u : Z) :
  In (PyInt u) (listed_ids (Db.get_admins true d)) <-> Db.has_admin d u = true.
Proof.
  unfold listed_ids, Db.get_admins. rewrite map_map, has_admin_spec.
  rewrite in_map_iff. split.
  - intros [r [Hr Hin]]. apply in_sort_by, in_sort_by in Hin.
    exists r. split; trivial. simpl in Hr. congruence.
  - intros [r [Hin Hr]]. exists r. split.
    + simpl. now rewrite Hr.
    + now apply in_sort_by, in_sort_by.
Qed.

Lemma remove_admin_absent (ok : bool) (d : Db.Database) (u : Z) :
  Db.has_admin d u = false -> fst (Db.remove_admin ok d u) = false.
Proof.
  intros H. unfold Db.remove_admin.
  destruct (ok && Db.sqlite_int u); simpl; trivial.
  replace (List.filter (Db.deleted u) (Db.admins d)) with (@nil Db.AdminRow).
  - reflexivity.
  - symmetry. unfold Db.has_admin in H.
    induction (Db.admins d) as [|r l IH]; simpl in *; trivial.
    apply orb_false_iff in H. destruct H as [H1 H2].
    unfold Db.deleted at 1. rewrite H1. simpl. now apply IH.
Qed.

Lemma remove_admin_main (ok : bool) (d : Db.Database) :
  fst (Db.remove_admin ok d MAIN_ADMIN_ID) = false.
Proof.
  unfold Db.remove_admin.
  destruct (ok && Db.sqlite_int MAIN_ADMIN_ID); simpl; trivial.
  replace (List.filter (Db.deleted MAIN_ADMIN_ID) (Db.admins d))
    with (@nil Db.AdminRow).
  - reflexivity.
  - symmetry. induction (Db.admins d) as [|r l IH]; simpl; trivial.
    unfold Db.deleted at 1.
    destruct (Db.user_id r =? MAIN_ADMIN_ID); simpl; apply IH.
Qed.

(** C6. [remove_admin] answers false when asked to remove the main admin
    or a principal that has no record, and whatever it is asked to remove,
    a main admin that was in the store is still listed by [get_admins]
    afterwards. *)
Theorem remove_admin_spares_main_admin (ok : bool) (d : Db.Database) (u : Z)
    (Hmain : Db.has_admin d MAIN_ADMIN_ID = true) :
  ((u = MAIN_ADMIN_ID \/ Db.has_admin d u = false) ->
   fst (Db.remove_admin ok d u) = false) /\
  In (PyInt MAIN_ADMIN_ID)
     (listed_ids (Db.get_admins true (snd (Db.remove_admin ok d u)))).
Proof.
  split.
  - intros [-> | Habsent].
    + apply remove_admin_main.
    + now apply remove_admin_absent.
  - apply listed_ids_spec, has_admin_spec.
    apply has_admin_spec in Hmain. destruct Hmain as [r [Hin Hr]].
    exists r. split; trivial. now apply remove_admin_keeps_main_row.
Qed.

Lemma remove_admin_spares_main_admin_witness :
  Db.has_admin team_db MAIN_ADMIN_ID = true /\
  fst (Db.remove_admin true team_db MAIN_ADMIN_ID) = false /\
  In (PyInt MAIN_ADMIN_ID)
     (listed_ids (Db.get_admins true
                    (snd (Db.remove_admin true team_db MAIN_ADMIN_ID)))).
Proof.
  split; [reflexivity |].
  destruct (remove_admin_spares_main_admin true team_db MAIN_ADMIN_ID
              eq_refl) as [Hfalse Hlisted].
  split; [apply Hfalse; left; reflexivity | exact Hlisted].
Defined.

(* ===================================================================== *)
(** ** The session store                                                  *)
(* ===================================================================== *)

Lemma get_sessions_keys (ok : bool) (d : Db.Database) (c : option Z) :
  Forall (fun row => keys row = listing_keys) (Db.get_sessions ok d c).
Proof.
  apply List.Forall_forall. intros row. unfold Db.get_sessions.
  destruct (Db.creator_filter c) as [c'|];
    [destruct (ok && Db.sqlite_int c') | destruct ok];
    intros Hrow; try (now destruct Hrow);
    apply in_map_iff in Hrow; destruct Hrow as [r [<- _]]; reflexivity.
Qed.

Lemma creator_filter_some (c c' : Z) :
  Db.creator_filter (Some c) = Some c' -> c' = c.
Proof.
  unfold Db.creator_filter. destruct (c =? 0); congruence.
Qed.

(** The sessions of alice and bob are both in the listing asked for
    creator 0, the later one first; the listing asked for bob has his
    only, and the listing asked for a creator without sessions is empty. *)
Example get_sessions_zero_example :
  Db.get_sessions true two_sessions_db (Some 0) =
    [[("phone"%string, PyStr "+15550199"); ("name"%string, PyStr "Dave");
      ("date"%string, PyInt 40)];
     [("phone"%string, PyStr "+15550100"); ("name"%string, PyStr "Carol Doe");
      ("date"%string, PyInt 30)]] /\
  Db.get_sessions true two_sessions_db (Some 1002) =
    [[("phone"%string, PyStr "+15550199"); ("name"%string, PyStr "Dave");
      ("date"%string, PyInt 40)]] /\
  Db.get_sessions true two_sessions_db (Some 4242) = [].
Proof. repeat split; reflexivity. Qed.

(** C8, as stated, fails: the session string saved by alice is not among
    the values of the entries [get_sessions] returns for her. *)
Lemma listing_has_no_session_string :
  let saved := Db.save_session true 30 team_db "1BVtsOKsecret" "+15550100"
                               (Some "Carol Doe"%string) (Some 1001) in
  fst saved = true /\
  ~ In (PyStr "1BVtsOKsecret")
       (concat (map values (Db.get_sessions true (snd saved) (Some 1001)))).
Proof.
  split.
  - reflexivity.
  - vm_compute. intros [H | [H | [H | []]]]; discriminate H.
Qed.

(** C8, amended. A session saved for creator [c] is stored with its
    session string unchanged, and a following [get_sessions] for [c] has an
    entry with its phone number, account name and date; the entries of a
    listing have the keys phone, name and date only. *)
Theorem saved_session_is_listed (ok : bool) (t : Z) (d d' : Db.Database)
    (session ph : string) (name : option string) (c : Z)
    (Hsaved : Db.save_session ok t d session ph name (Some c) = (true, d')) :
  (exists r, In r (Db.sessions d') /\ Db.session_string r = session /\
             Db.created_by r = Some c) /\
  In [("phone"%string, PyStr ph); ("name"%string, py_opt_str name);
      ("date"%string, PyInt t)]
     (Db.get_sessions true d' (Some c)) /\
  Forall (fun row => keys row = listing_keys)
         (Db.get_sessions true d' (Some c)).
Proof.
  unfold Db.save_session in Hsaved.
  destruct (ok && Db.sqlite_opt_int (Some c)) eqn:Hok; [| discriminate].
  apply andb_true_iff in Hok. destruct Hok as [_ Hint]. simpl in Hint.
  injection Hsaved as <-.
  set (r := {| Db.id := Db.session_seq d + 1; Db.session_string := session;
               Db.phone_number := ph; Db.account_name := name;
               Db.created_by := Some c; Db.date_created := t |}).
  assert (Hr : In r (Db.sessions d ++ [r])) by (apply in_or_app; right; now left).
  split; [| split].
  - exists r. simpl. auto.
  - unfold Db.get_sessions. simpl Db.sessions.
    destruct (Db.creator_filter (Some c)) as [c'|] eqn:Hf.
    + apply creator_filter_some in Hf. subst c'. rewrite Hint. simpl.
      apply in_map_iff. exists r. split; [reflexivity |].
      apply in_sort_by, in_sort_by, filter_In. split; trivial.
      unfold Db.created_by_is. simpl. apply Z.eqb_refl.
    + apply in_map_iff. exists r. split; [reflexivity |].
      now apply in_sort_by, in_sort_by.
  - apply get_sessions_keys.
Qed.

Lemma saved_session_is_listed_witness :
  In [("phone"%string, PyStr "+15550100"); ("name"%string, PyStr "Carol Doe");
      ("date"%string, PyInt 30)]
     (Db.get_sessions true
        (snd (Db.save_session true 30 team_db "1BVtsOKsecret" "+15550100"
                              (Some "Carol Doe"%string) (Some 1001)))
        (Some 1001)).
Proof.
  exact (proj1 (proj2
    (saved_session_is_listed true 30 team_db _ "1BVtsOKsecret" "+15550100"
       (Some "Carol Doe"%string) 1001 eq_refl))).
Defined.

(* ===================================================================== *)
(** ** The authorization gate                                             *)
(* ===================================================================== *)

(** What each entry point does for a sender that is not an admin: a log
    line for /start, the callback acknowledgement for a button, nothing
    for a text. *)
Lemma non_admin_traces (env : Env) (user : User) (w : World) :
  Db.is_admin (storage env GateCheck) (db w) (uid user) = false ->
  forall data text fwd date,
    trace_of env (StartCommand user) w =
      [Log Info "Non-admin user attempted to access bot"] /\
    trace_of env (CallbackQuery user data) w = [Answer] /\
    trace_of env (TextMessage user text fwd date) w = [].
Proof.
  intros Hgate data text fwd date.
  repeat split; run_handler; rewrite Hgate; reflexivity.
Qed.

(** C4. For a sender with no record in the admins table, the /start
    command, a button press and a text message send no message: no
    outbound event is produced, and the world is left as it was. *)
Theorem non_admin_gets_no_outbound_event (env : Env) (u : Update) (w : World)
    (Habsent : Db.has_admin (db w) (uid (sender u)) = false) :
  outbound (trace_of env u w) = [] /\ world_after env u w = w.
Proof.
  pose proof (is_admin_absent (storage env GateCheck) _ _ Habsent) as Hgate.
  destruct u as [user | user data | user text fwd date]; simpl in Hgate;
    run_handler; rewrite Hgate; split; reflexivity.
Qed.

Lemma non_admin_gets_no_outbound_event_witness :
  Db.has_admin (db team_world) (uid stranger) = false /\
  outbound (trace_of calm (CallbackQuery stranger "remove_admin_1001")
                     team_world) = [] /\
  world_after calm (CallbackQuery stranger "remove_admin_1001") team_world
    = team_world.
Proof.
  split; [reflexivity |].
  exact (non_admin_gets_no_outbound_event calm
           (CallbackQuery stranger "remove_admin_1001") team_world eq_refl).
Defined.

(* ===================================================================== *)
(** ** Who can change the admins table                                    *)
(* ===================================================================== *)

(** The two menu entries are guarded: pressed by an admin other than the
    main admin they do nothing beyond the acknowledgement. *)
Lemma admin_menu_is_guarded (env : Env) (user : User) (w : World) :
  Db.is_admin (storage env GateCheck) (db w) (uid user) = true ->
  (uid user =? MAIN_ADMIN_ID) = false ->
  (trace_of env (CallbackQuery user "add_admin") w = [Answer] /\
   world_after env (CallbackQuery user "add_admin") w = w) /\
  (trace_of env (CallbackQuery user "remove_admin") w = [Answer] /\
   world_after env (CallbackQuery user "remove_admin") w = w).
Proof.
  intros Hgate Hplain.
  repeat split; run_handler; rewrite Hgate; cbn; rewrite Hplain; reflexivity.
Qed.

(** C3. The branch that commits a removal has no such guard: alice, an
    admin who is not the main admin, sends the button data
    "remove_admin_1002" and bob's record is deleted. *)
Theorem plain_admin_removes_admin :
  (uid alice =? MAIN_ADMIN_ID) = false /\
  Db.has_admin (db team_world) (uid bob) = true /\
  trace_of calm (CallbackQuery alice "remove_admin_1002") team_world =
    [Answer; Edit 1001 (TAdminRemoved 1002) back_to_main_kb;
     Log Info "Admin removed"] /\
  Db.has_admin
    (db (world_after calm (CallbackQuery alice "remove_admin_1002") team_world))
    (uid bob) = false.
Proof. repeat split; reflexivity. Qed.

(* ===================================================================== *)
(** ** The conversation                                                   *)
(* ===================================================================== *)

(** "back_to_main" redraws the menu and touches nothing: flags, stored
    client and open connections are as before. *)
Lemma back_to_main_changes_nothing (env : Env) (user : User) (w : World) :
  Db.is_admin (storage env GateCheck) (db w) (uid user) = true ->
  trace_of env (CallbackQuery user "back_to_main") w =
    [Answer; Edit (uid user) TChooseOption (get_main_keyboard (uid user))] /\
  world_after env (CallbackQuery user "back_to_main") w = w.
Proof.
  intros Hgate. split; run_handler; rewrite Hgate; reflexivity.
Qed.

(** C1. Alice asks for a session, sends her phone number, then presses
    Cancel ("back_to_main"): the client connected for her is never
    disconnected, it is still stored in her user data, and her state is
    still AwaitingCode instead of Idle. *)
Theorem cancel_leaves_client_open :
  connects (fst (run alice_cancels team_world)) = [O] /\
  disconnects (fst (run alice_cancels team_world)) = [] /\
  elements (open_clients (snd (run alice_cancels team_world))) = [O] /\
  temp_client (data_of (snd (run alice_cancels team_world)) 1001) = Some O /\
  state_of (data_of (snd (run alice_cancels team_world)) 1001) = AwaitingCode.
Proof. repeat split; vm_compute; reflexivity. Qed.

(** The error path of the same flow: the provider refuses to send the
    code, alice is told so and is back in Idle, and the client that was
    connected stays open (it is not even stored). *)
Example send_code_fault_leaves_client_open :
  let steps :=
    [(calm, CallbackQuery alice "generate_session");
     (with_send_code_request (Some network_down) calm,
      TextMessage alice "+15550100" NotForwarded 40)] in
  connects (fst (run steps team_world)) = [O] /\
  disconnects (fst (run steps team_world)) = [] /\
  elements (open_clients (snd (run steps team_world))) = [O] /\
  temp_client (data_of (snd (run steps team_world)) 1001) = None /\
  state_of (data_of (snd (run steps team_world)) 1001) = Idle.
Proof. repeat split; vm_compute; reflexivity. Qed.

(** The success path does close the client. *)
Example success_closes_client :
  let steps :=
    [(calm, CallbackQuery alice "generate_session");
     (calm, TextMessage alice "+15550100" NotForwarded 40);
     (calm, TextMessage alice "4 6 9 4 9" NotForwarded 41)] in
  connects (fst (run steps team_world)) = [O] /\
  disconnects (fst (run steps team_world)) = [O] /\
  elements (open_clients (snd (run steps team_world))) = [] /\
  state_of (data_of (snd (run steps team_world)) 1001) = Idle.
Proof. repeat split; vm_compute; reflexivity. Qed.

(** C5. Alice is in AwaitingPhone and sends "1234567890": she gets the
    invalid-format reply and no provider call is made, but her state is
    Idle afterwards, so the well-formed number she sends next is ignored. *)
Theorem invalid_phone_leaves_awaiting_phone :
  state_of (data_of alice_awaiting_phone 1001) = AwaitingPhone /\
  trace_of calm (TextMessage alice "1234567890" NotForwarded 40)
           alice_awaiting_phone =
    [Reply 1001 TInvalidPhone back_to_main_kb] /\
  state_of (data_of (world_after calm
                       (TextMessage alice "1234567890" NotForwarded 40)
                       alice_awaiting_phone) 1001) = Idle /\
  trace_of calm (TextMessage alice "+1234567890" NotForwarded 41)
           (world_after calm (TextMessage alice "1234567890" NotForwarded 40)
                        alice_awaiting_phone) = [].
Proof. repeat split; vm_compute; reflexivity. Qed.

(** The same for every admin and every malformed number: the reply is
    sent and [expecting_phone] is left false. *)
Lemma invalid_phone_clears_the_flag (env : Env) (user : User) (text : string)
    (fwd : Forward) (date : Z) (w : World) :
  Db.is_admin (storage env GateCheck) (db w) (uid user) = true ->
  expecting_phone (data_of w (uid user)) = true ->
  valid_phone (PyStr.strip text) = false ->
  trace_of env (TextMessage user text fwd date) w =
    [Reply (uid user) TInvalidPhone back_to_main_kb] /\
  expecting_phone (data_of (world_after env (TextMessage user text fwd date) w)
                           (uid user)) = false.
Proof.
  intros Hgate Hflag Hbad.
  unfold trace_of, world_after, handle, handle_message, try_except, bind,
    is_admin, read_db, get_data, ret.
  rewrite Hgate. cbn [negb fst snd]. rewrite Hflag.
  unfold process_phone_input, try_except, bind, emit.
  rewrite Hbad. cbn [negb fst snd app].
  split; [reflexivity |].
  unfold update_data, data_of. cbn [fst snd user_data].
  now rewrite lookup_insert_eq.
Qed.

(** The code step, next to it, does stay armed after a malformed code. *)
Example invalid_code_stays_awaiting_code :
  let w := world_after calm (TextMessage alice "+15550100" NotForwarded 40)
                       alice_awaiting_phone in
  state_of (data_of w 1001) = AwaitingCode /\
  trace_of calm (TextMessage alice "abc12" NotForwarded 41) w =
    [Reply 1001 TInvalidCodeFormat back_to_main_kb] /\
  state_of (data_of (world_after calm
                       (TextMessage alice "abc12" NotForwarded 41) w) 1001)
    = AwaitingCode.
Proof. repeat split; vm_compute; reflexivity. Qed.

(* ===================================================================== *)
(** ** Input validation                                                   *)
(* ===================================================================== *)

Lemma digit_is_not_dash (c : ascii) :
  PyStr.isdigit_char c = true -> Ascii.eqb "-" c = false.
Proof.
  intros Hd. destruct (Ascii.eqb_spec "-" c) as [<- | _]; trivial.
  discriminate Hd.
Qed.

Lemma remove_dash_from_digits (s : string) :
  PyStr.all_chars PyStr.isdigit_char s = true -> PyStr.remove_char "-" s = s.
Proof.
  induction s as [|c s IH]; cbn [PyStr.remove_char PyStr.all_chars]; trivial.
  intros H. apply andb_true_iff in H. destruct H as [Hc Hs].
  rewrite (digit_is_not_dash c Hc). now rewrite IH.
Qed.

(** A number that passed validation contains no dash: the dash removal of
    the cleaning step never removes anything. *)
Lemma clean_phone_of_valid (ph : string) :
  valid_phone ph = true -> clean_phone ph = PyStr.remove_char " " ph.
Proof.
  unfold valid_phone, clean_phone. intros H.
  apply andb_true_iff in H. destruct H as [Hplus Hdigits].
  destruct ph as [|c rest]; [discriminate Hplus |].
  unfold PyStr.startswith in Hplus. simpl in Hplus.
  destruct (Ascii.eqb_spec c "+") as [-> | Hne].
  - simpl in *. f_equal. apply remove_dash_from_digits.
    unfold PyStr.isdigit in Hdigits.
    now destruct (PyStr.remove_char " " rest).
  - destruct c as [[] [] [] [] [] [] [] []]; try discriminate Hplus.
    now elim Hne.
Qed.

(** C7. A phone number written with dashes, "+1-555-123-4567", is
    rejected with the invalid-format reply and no provider call, although
    the cleaning step that follows validation would turn it into the
    digits-only "+15551234567", which is accepted. *)
Theorem dashed_phone_is_rejected :
  valid_phone (PyStr.strip "+1-555-123-4567") = false /\
  clean_phone (PyStr.strip "+1-555-123-4567") = "+15551234567"%string /\
  valid_phone "+15551234567" = true /\
  trace_of calm (TextMessage alice "+1-555-123-4567" NotForwarded 40)
           alice_awaiting_phone =
    [Reply 1001 TInvalidPhone back_to_main_kb].
Proof. repeat split; vm_compute; reflexivity. Qed.

(* ===================================================================== *)
(** ** Completing a generation: save, display and backup                  *)
(* ===================================================================== *)

(** C2, as stated, fails: alice's code is accepted and the session string
    exists, [save_session] fails, and the only text put in front of her
    after "Authenticating" is the failed-save notice; the session string is
    in none of them. *)
Lemma failed_save_shows_no_artifact :
  trace_of save_fails (TextMessage alice "4 6 9 4 9" NotForwarded 41)
           alice_awaiting_code =
    [Reply 1001 TAuthenticating []; SignInCode 0 "+15550100" "46949";
     Disconnect 0; Edit 1001 TSaveFailed back_to_main_kb] /\
  ~ In (Some (session_save save_fails))
       (map payload_of
            (shown_to 1001
               (trace_of save_fails
                         (TextMessage alice "4 6 9 4 9" NotForwarded 41)
                         alice_awaiting_code))).
Proof.
  split.
  - vm_compute. reflexivity.
  - vm_compute. intros [H | [H | []]]; discriminate H.
Qed.

(** C2, amended. When the provider authentication is complete and the
    session string exists but [save_session] fails, the engine disconnects
    the client and reports the failed save to the requester; the session
    string is not shown: display is conditioned on the save. *)
Theorem failed_save_is_reported_without_artifact (env : Env) (user : User)
    (date : Z) (client : nat) (ph : string) (w : World) (me : Me)
    (Hme : get_me env = inr me)
    (Hsave : fst (Db.save_session (storage env SaveSessionCall) (now env)
                    (db w) (session_save env) ph
                    (Some (account_name_of me)) (Some (uid user))) = false) :
  fst (fst (complete_session_generation env user date client ph w)) =
    [Disconnect client; Edit (uid user) TSaveFailed back_to_main_kb] /\
  map payload_of
      (shown_to (uid user)
         (fst (fst (complete_session_generation env user date client ph w))))
    = [None].
Proof.
  run_completion. rewrite Hme. cbn [fst snd db]. rewrite Hsave.
  split; [reflexivity |].
  unfold shown_to. cbn. now rewrite Z.eqb_refl.
Qed.

Lemma failed_save_is_reported_without_artifact_witness :
  fst (fst (complete_session_generation save_fails alice 41 O "+15550100"
              alice_awaiting_code)) =
    [Disconnect O; Edit 1001 TSaveFailed back_to_main_kb].
Proof.
  exact (proj1 (failed_save_is_reported_without_artifact save_fails alice 41 O
                  "+15550100" alice_awaiting_code _ eq_refl eq_refl)).
Defined.

(** C9, as stated, fails: bob's password is accepted and the session
    string exists, [save_session] fails, and no message is sent to the main
    admin at all. *)
Lemma failed_save_sends_no_backup :
  trace_of save_fails (TextMessage bob "hunter2" NotForwarded 52)
           bob_awaiting_2fa =
    [Reply 1002 TVerifying2FA []; SignInPassword 0 "hunter2";
     Disconnect 0; Edit 1002 TSaveFailed back_to_main_kb] /\
  relays (trace_of save_fails (TextMessage bob "hunter2" NotForwarded 52)
                   bob_awaiting_2fa) = [].
Proof. split; vm_compute; reflexivity. Qed.

(** C9, amended. On every generation whose session was saved and shown
    to the requester, exactly one message is sent to the main admin: the
    self-generated notice when the requester is the main admin, otherwise
    the backup notice with the requester's name and id and the date of the
    message.  When that send fails a warning is logged, no exception
    escapes, the world is left as after a delivered backup, and there is no
    second attempt.  On every generation whose save fails no message is
    sent to the main admin. *)
Theorem backup_follows_successful_save (env : Env) (user : User) (date : Z)
    (client : nat) (ph : string) (w : World) (me : Me)
    (Hme : get_me env = inr me) :
  let account := account_name_of me in
  let session := session_save env in
  let saved :=
    fst (Db.save_session (storage env SaveSessionCall) (now env) (db w)
                         session ph (Some account) (Some (uid user))) in
  let shown := TSessionGenerated account ph session in
  let notice :=
    if uid user =? MAIN_ADMIN_ID
    then TSelfGenerated account ph date session
    else TBackupAlert account ph (PyStr.or_else (u_first_name user) "Unknown")
                      (uid user) date session in
  let r := complete_session_generation env user date client ph w in
  (saved = true -> refused env shown = None ->
   relays (fst (fst r)) =
     [(MAIN_ADMIN_ID, notice,
       match send_message env with None => true | Some _ => false end)] /\
   In (Edit (uid user) shown back_to_main_kb) (fst (fst r)) /\
   snd r = inr tt /\
   snd (fst r) =
     snd (fst (complete_session_generation (with_send_message None env) user
                 date client ph w)) /\
   (send_message env <> None ->
    exists what, In (Log Warning what) (fst (fst r)))) /\
  (saved = false -> relays (fst (fst r)) = [] /\ snd r = inr tt).
Proof.
  intros account session saved shown notice r.
  subst r notice saved shown account session.
  unfold complete_session_generation, edit_text, send_backup,
    bot_send_message, client_get_me, raising, try_except, bind, ret,
    mark_closed, update_data, write_db, log, emit, refused.
  cbn [with_send_message get_me storage now session_save send_message
       parse_entities].
  rewrite Hme. cbn [fst snd db].
  split.
  - intros Hsave Hshown. rewrite Hsave, Hshown.
    destruct (uid user =? MAIN_ADMIN_ID), (send_message env) as [e|];
      cbn [negb fst snd app].
    all: repeat split; try reflexivity.
    all: try (simpl; tauto).
    all: try (intros _; eexists; simpl; eauto 10).
    all: try (intros H; now elim H).
  - intros Hsave. rewrite Hsave. split; reflexivity.
Qed.

Lemma backup_follows_successful_save_witness :
  (relays (fst (fst (complete_session_generation relay_down alice 41 O
                       "+15550100" alice_awaiting_code))) =
     [(MAIN_ADMIN_ID,
       TBackupAlert "Carol Doe" "+15550100" "Alice" 1001 41 "1BVtsOKsecret",
       false)] /\
   snd (complete_session_generation relay_down alice 41 O "+15550100"
          alice_awaiting_code) = inr tt) /\
  relays (fst (fst (complete_session_generation save_fails bob 52 O
                      "+15550199" bob_awaiting_2fa))) = [].
Proof.
  split.
  - destruct (proj1 (backup_follows_successful_save relay_down alice 41 O
                       "+15550100" alice_awaiting_code _ eq_refl)
                    eq_refl eq_refl)
      as [Hrelay [_ [Hdone _]]].
    split; [exact Hrelay | exact Hdone].
  - exact (proj1 (proj2 (backup_follows_successful_save save_fails bob 52 O
                           "+15550199" bob_awaiting_2fa _ eq_refl)
                        eq_refl)).
Defined.

(** Outside the amended claim: the session is saved, and the transport
    refuses the text that shows it, because the account name opens an
    entity.  The exception leaves the branch before the copy for the main
    admin is sent; the requester gets the error text. *)
Example refused_display_skips_backup :
  let r := complete_session_generation underscore_account alice 41 O
             "+15550100" alice_awaiting_code in
  fst (fst r) =
    [Disconnect 0;
     Edit 1001 (TSessionGenerated "carol_doe" "+15550100" "1BVtsOKsecret")
          back_to_main_kb;
     Log Error "Error in complete_session_generation";
     Edit 1001 (TGenerationError "Can't parse entities") back_to_main_kb] /\
  relays (fst (fst r)) = [] /\
  map Db.session_string (Db.sessions (db (snd (fst r)))) =
    ["1BVtsOKsecret"%string].
Proof. repeat split; vm_compute; reflexivity. Qed.

(* ===================================================================== *)
(** ** More on the two tables                                             *)
(* ===================================================================== *)

Section SortedBy.

Context {A : Type} (le : A -> A -> bool).
Hypothesis le_total : forall a b, le a b = true \/ le b a = true.

Lemma insert_by_hd (x : A) (l : list A) (a : A) :
  HdRel (fun a b => le a b = true) a l -> le a x = true ->
  HdRel (fun a b => le a b = true) a (Db.insert_by le x l).
Proof.
  intros Hl Hax. destruct l as [|y l]; simpl.
  - now constructor.
  - destruct (le x y); constructor; trivial. now inversion Hl.
Qed.

Lemma insert_by_sorted (x : A) (l : list A) :
  Sorted (fun a b => le a b = true) l ->
  Sorted (fun a b => le a b = true) (Db.insert_by le x l).
Proof.
  induction 1 as [|y l Hs IH Hhd]; simpl.
  - repeat constructor.
  - destruct (le x y) eqn:Hxy.
    + constructor; [now constructor | now constructor].
    + constructor; trivial. apply insert_by_hd; trivial.
      destruct (le_total x y); congruence.
Qed.

Lemma sort_by_sorted (l : list A) :
  Sorted (fun a b => le a b = true) (Db.sort_by le l).
Proof.
  induction l as [|x l IH]; simpl; [constructor | now apply insert_by_sorted].
Qed.

End SortedBy.

Lemma sorted_map {A B} (f : A -> B) (R : A -> A -> Prop) (S : B -> B -> Prop)
    (l : list A) :
  (forall a b, R a b -> S (f a) (f b)) -> Sorted R l -> Sorted S (map f l).
Proof.
  intros HRS. induction 1 as [|a l Hs IH Hhd]; simpl; constructor; trivial.
  destruct Hhd; simpl; constructor; auto.
Qed.

(** X1. [get_admins] lists the admins oldest first: the [date_added]
    values never decrease along the listing, and the listing has the user
    ids of the table, each as often as stored. *)
Theorem get_admins_oldest_first (d : Db.Database) :
  StronglySorted Z.le (map (int_item "date_added") (Db.get_admins true d)) /\
  Permutation (map (int_item "user_id") (Db.get_admins true d)) (admin_ids d).
Proof.
  unfold Db.get_admins, admin_ids. rewrite !map_map. split.
  - apply Sorted_StronglySorted; [intros a b c; apply Z.le_trans |].
    change (fun x => int_item "date_added" (Db.admin_dict x))
      with Db.date_added.
    apply (sorted_map _
             (fun a b => (Db.date_added a <=? Db.date_added b) = true)).
    + intros a b. apply Z.leb_le.
    + apply sort_by_sorted. intros a b.
      destruct (Z.le_ge_cases (Db.date_added a) (Db.date_added b));
        [left | right]; now apply Z.leb_le.
  - change (fun x => int_item "user_id" (Db.admin_dict x)) with Db.user_id.
    apply Permutation_map. now rewrite !sort_by_perm.
Qed.

(** Admins added in the same second are listed in the order of their
    ids, whichever was added first. *)
Example get_admins_ties_example :
  let d :=
    snd (Db.add_admin true 10
           (snd (Db.add_admin true 10 (Db.init_database 0 Db.empty)
                              1002 None None None))
           1001 None None None) in
  admin_ids d = [MAIN_ADMIN_ID; 1002; 1001] /\
  listed_ids (Db.get_admins true d) =
    [PyInt MAIN_ADMIN_ID; PyInt 1001; PyInt 1002].
Proof. split; reflexivity. Qed.

(** Rows sorted by [date_created DESC] are listed with dates that never
    increase. *)
Lemma listing_dates_decrease (l : list Db.SessionRow) :
  StronglySorted Z.ge
    (map (int_item "date")
      (map Db.session_dict
        (Db.sort_by (fun a b => Db.date_created b <=? Db.date_created a) l))).
Proof.
  rewrite map_map.
  apply Sorted_StronglySorted; [intros x y z; lia |].
  change (fun x => int_item "date" (Db.session_dict x))
    with Db.date_created.
  apply (sorted_map _
           (fun a b => (Db.date_created b <=? Db.date_created a) = true)).
  - intros a b Hab. apply Z.leb_le in Hab. lia.
  - apply sort_by_sorted. intros a b.
    destruct (Z.le_ge_cases (Db.date_created a) (Db.date_created b));
      [right | left]; now apply Z.leb_le.
Qed.

(** X2. [get_sessions] lists newest first, with or without a creator:
    the dates never increase along the listing. *)
Theorem get_sessions_newest_first (d : Db.Database) (c : option Z) :
  StronglySorted Z.ge (map (int_item "date") (Db.get_sessions true d c)).
Proof.
  unfold Db.get_sessions.
  destruct (Db.creator_filter c) as [c'|];
    [destruct (true && Db.sqlite_int c') |];
    try apply listing_dates_decrease; constructor.
Qed.

(** C10. Asked for the sessions of creator 0, [get_sessions] runs the
    query without the creator filter: the answer is that of the unfiltered
    call, and it has one entry, with phone number, account name and date,
    for every stored session, whoever created it, newest first; asked for
    a creator other than 0 it lists the sessions of that creator only. *)
Theorem get_sessions_zero_is_unfiltered (ok : bool) (d : Db.Database) (c : Z)
    (Hc : c <> 0) (Hfits : Db.sqlite_int c = true) :
  let entry := fun r : Db.SessionRow =>
    [("phone"%string, PyStr (Db.phone_number r));
     ("name"%string, py_opt_str (Db.account_name r));
     ("date"%string, PyInt (Db.date_created r))] in
  let created_by_c := fun r : Db.SessionRow =>
    match Db.created_by r with
    | Some c' => c' =? c
    | None => false
    end in
  Db.get_sessions ok d (Some 0) = Db.get_sessions ok d None /\
  Permutation (Db.get_sessions true d (Some 0)) (map entry (Db.sessions d)) /\
  StronglySorted Z.ge
    (map (int_item "date") (Db.get_sessions true d (Some 0))) /\
  Permutation (Db.get_sessions true d (Some c))
              (map entry (List.filter created_by_c (Db.sessions d))).
Proof.
  intros entry created_by_c.
  split; [reflexivity |]. split; [| split].
  - unfold Db.get_sessions. cbn [Db.creator_filter Z.eqb].
    apply (Permutation_map Db.session_dict). now rewrite !sort_by_perm.
  - unfold Db.get_sessions. cbn [Db.creator_filter Z.eqb].
    apply listing_dates_decrease.
  - unfold Db.get_sessions, Db.creator_filter.
    apply Z.eqb_neq in Hc. rewrite Hc, Hfits. cbn [andb].
    apply (Permutation_map Db.session_dict). now rewrite !sort_by_perm.
Qed.

Lemma get_sessions_zero_is_unfiltered_witness :
  Permutation (Db.get_sessions true two_sessions_db (Some 0))
    [[("phone"%string, PyStr "+15550100"); ("name"%string, PyStr "Carol Doe");
      ("date"%string, PyInt 30)];
     [("phone"%string, PyStr "+15550199"); ("name"%string, PyStr "Dave");
      ("date"%string, PyInt 40)]] /\
  Permutation (Db.get_sessions true two_sessions_db (Some 1002))
    [[("phone"%string, PyStr "+15550199"); ("name"%string, PyStr "Dave");
      ("date"%string, PyInt 40)]].
Proof.
  assert (Hc : 1002 <> 0) by discriminate.
  pose proof (get_sessions_zero_is_unfiltered true two_sessions_db 1002 Hc
                eq_refl) as H.
  cbv zeta in H. destruct H as [_ [Hall [_ Hbob]]].
  split; [exact Hall | exact Hbob].
Defined.

Lemma has_admin_app (l1 l2 : list Db.AdminRow) (s : list Db.SessionRow)
    (q u : Z) :
  Db.has_admin {| Db.admins := l1 ++ l2; Db.sessions := s;
                  Db.session_seq := q |} u =
  existsb (fun r => Db.user_id r =? u) l1 ||
  existsb (fun r => Db.user_id r =? u) l2.
Proof. unfold Db.has_admin. simpl. apply existsb_app. Qed.

Lemma existsb_filter_other (l : list Db.AdminRow) (u v : Z) :
  u <> v ->
  existsb (fun r => Db.user_id r =? v)
          (List.filter (fun r => negb (Db.user_id r =? u)) l) =
  existsb (fun r => Db.user_id r =? v) l.
Proof.
  intros Hne. induction l as [|r l IH]; simpl; trivial.
  destruct (Db.user_id r =? u) eqn:Hu; simpl; rewrite IH; trivial.
  apply Z.eqb_eq in Hu. replace (Db.user_id r =? v) with false; trivial.
  symmetry. apply Z.eqb_neq. congruence.
Qed.

Lemma filter_out_then_find (l : list Db.AdminRow) (u : Z) :
  List.filter (fun r => Db.user_id r =? u)
              (List.filter (fun r => negb (Db.user_id r =? u)) l) = [].
Proof.
  induction l as [|r l IH]; simpl; trivial.
  destruct (Db.user_id r =? u) eqn:Hu; simpl; trivial. now rewrite Hu.
Qed.

(** What a successful [add_admin] leaves, in terms of [has_admin]. *)
Lemma has_admin_after_add (ok : bool) (t : Z) (d : Db.Database) (u : Z)
    (uname fname : option string) (by_ : option Z) (v : Z) :
  Db.has_admin (snd (Db.add_admin ok t d u uname fname by_)) v =
  Db.has_admin d v ||
  (fst (Db.add_admin ok t d u uname fname by_) && (u =? v)).
Proof.
  unfold Db.add_admin.
  destruct (ok && Db.sqlite_int u && Db.sqlite_opt_int by_);
    cbn [fst snd andb]; [| now rewrite orb_false_r].
  rewrite has_admin_app. cbn [existsb Db.user_id]. rewrite orb_false_r.
  destruct (Z.eqb_spec u v) as [-> | Hne].
  - now rewrite !orb_true_r.
  - rewrite (existsb_filter_other _ u v Hne), !orb_false_r. reflexivity.
Qed.

(** X3. A successful [add_admin] makes the user an admin and leaves
    exactly one row for that user id, the one just given (a second call
    replaces name, first name and adder); the status of every other user
    and the sessions are untouched. *)
Theorem add_admin_replaces (t : Z) (d d' : Db.Database) (u : Z)
    (uname fname : option string) (by_ : option Z)
    (Hadd : Db.add_admin true t d u uname fname by_ = (true, d')) :
  Db.is_admin true d' u = true /\
  rows_of u d' = [{| Db.user_id := u; Db.username := uname;
                     Db.first_name := fname; Db.added_by := by_;
                     Db.date_added := t |}] /\
  (forall v, v <> u -> Db.has_admin d' v = Db.has_admin d v) /\
  Db.sessions d' = Db.sessions d.
Proof.
  pose proof (has_admin_after_add true t d u uname fname by_) as Hhas.
  rewrite Hadd in Hhas. cbn [fst snd andb] in Hhas.
  unfold Db.add_admin in Hadd.
  destruct (true && Db.sqlite_int u && Db.sqlite_opt_int by_) eqn:Hok;
    [| discriminate].
  apply andb_true_iff in Hok. destruct Hok as [Hu _]. simpl in Hu.
  repeat split.
  - unfold Db.is_admin. rewrite Hu, Hhas, Z.eqb_refl. apply orb_true_r.
  - injection Hadd as <-. unfold rows_of. simpl.
    rewrite List.filter_app, filter_out_then_find. simpl.
    now rewrite Z.eqb_refl.
  - intros v Hv. rewrite Hhas.
    replace (u =? v) with false by (symmetry; apply Z.eqb_neq; congruence).
    apply orb_false_r.
  - now injection Hadd as <-.
Qed.

Lemma add_admin_replaces_witness :
  rows_of 1001 (snd (Db.add_admin true 30 team_db 1001 (Some "al"%string)
                                  None (Some MAIN_ADMIN_ID))) =
    [{| Db.user_id := 1001; Db.username := Some "al"%string;
        Db.first_name := None; Db.added_by := Some MAIN_ADMIN_ID;
        Db.date_added := 30 |}].
Proof.
  exact (proj1 (proj2
    (add_admin_replaces 30 team_db _ 1001 (Some "al"%string) None
                        (Some MAIN_ADMIN_ID) eq_refl))).
Defined.

Lemma nodup_snoc {A} (l : list A) (x : A) :
  List.NoDup l -> ~ In x l -> List.NoDup (l ++ [x]).
Proof.
  induction l as [|a l IH]; simpl; intros Hnd Hx.
  - repeat constructor. intros [].
  - inversion Hnd as [|y ys Hnin Hnd']; subst. constructor.
    + rewrite in_app_iff. simpl. intros [H | [H | []]]; [tauto | subst; tauto].
    + apply IH; tauto.
Qed.

Lemma nodup_filter_map {A B} (f : A -> B) (p : A -> bool) (l : list A) :
  List.NoDup (map f l) -> List.NoDup (map f (List.filter p l)).
Proof.
  induction l as [|a l IH]; simpl; intros H; trivial.
  inversion H as [|x xs Hnin Hnd]; subst.
  destruct (p a); simpl; auto.
  constructor; auto. rewrite in_map_iff in *. intros [y [Hy Hin]].
  apply Hnin. exists y. split; trivial. apply filter_In in Hin. tauto.
Qed.

Lemma nodup_after_add (ok : bool) (t : Z) (d : Db.Database) (u : Z)
    (uname fname : option string) (by_ : option Z) :
  List.NoDup (admin_ids d) ->
  List.NoDup (admin_ids (snd (Db.add_admin ok t d u uname fname by_))).
Proof.
  unfold admin_ids, Db.add_admin. intros Huniq.
  destruct (ok && Db.sqlite_int u && Db.sqlite_opt_int by_); trivial.
  simpl. rewrite map_app. simpl. apply nodup_snoc.
  - now apply nodup_filter_map.
  - intros Hx. apply in_map_iff in Hx. destruct Hx as [r [Hr Hin]].
    apply filter_In in Hin. destruct Hin as [_ Hin].
    rewrite Hr, Z.eqb_refl in Hin. discriminate.
Qed.

Lemma nodup_after_remove (ok : bool) (d : Db.Database) (u : Z) :
  List.NoDup (admin_ids d) ->
  List.NoDup (admin_ids (snd (Db.remove_admin ok d u))).
Proof.
  unfold admin_ids, Db.remove_admin. intros Huniq.
  destruct (ok && Db.sqlite_int u); trivial.
  simpl. now apply nodup_filter_map.
Qed.

(** X4. The user id stays a key of the admins table: if no id occurs
    twice, none does after [init_database], [add_admin] or
    [remove_admin], whatever their arguments and whether SQLite answers. *)
Theorem admin_ids_stay_unique (ok : bool) (t : Z) (d : Db.Database) (u : Z)
    (uname fname : option string) (by_ : option Z)
    (Huniq : List.NoDup (admin_ids d)) :
  List.NoDup (admin_ids (Db.init_database t d)) /\
  List.NoDup (admin_ids (snd (Db.add_admin ok t d u uname fname by_))) /\
  List.NoDup (admin_ids (snd (Db.remove_admin ok d u))).
Proof.
  split; [| split].
  - unfold admin_ids in *. unfold Db.init_database.
    destruct (Db.has_admin d MAIN_ADMIN_ID) eqn:H; trivial.
    simpl. rewrite map_app. simpl. apply nodup_snoc; trivial.
    intros Hx. apply in_map_iff in Hx. destruct Hx as [r [Hr Hin]].
    assert (Db.has_admin d MAIN_ADMIN_ID = true); [| congruence].
    apply has_admin_spec. eauto.
  - now apply nodup_after_add.
  - now apply nodup_after_remove.
Qed.

Lemma admin_ids_stay_unique_witness :
  List.NoDup (admin_ids team_db) /\
  List.NoDup (admin_ids (snd (Db.add_admin true 30 team_db 1001 None None
                                           None))).
Proof.
  assert (Huniq : List.NoDup (admin_ids team_db)).
  { repeat constructor; simpl; intuition discriminate. }
  split; [exact Huniq |].
  exact (proj1 (proj2
    (admin_ids_stay_unique true 30 team_db 1001 None None None Huniq))).
Defined.

Lemma filter_deleted_none (l : list Db.AdminRow) (u : Z) :
  List.filter (Db.deleted u) l = [] ->
  List.filter (fun r => negb (Db.deleted u r)) l = l.
Proof.
  induction l as [|r l IH]; simpl; trivial.
  destruct (Db.deleted u r); simpl; [discriminate |].
  intros H. now rewrite IH.
Qed.

(** X5. A [remove_admin] that answers false has changed nothing in the
    database. *)
Theorem remove_admin_false_is_noop (ok : bool) (d : Db.Database) (u : Z)
    (Hfalse : fst (Db.remove_admin ok d u) = false) :
  snd (Db.remove_admin ok d u) = d.
Proof.
  unfold Db.remove_admin in *.
  destruct (ok && Db.sqlite_int u); trivial. simpl in *.
  destruct (List.filter (Db.deleted u) (Db.admins d)) eqn:Hdel;
    [| discriminate Hfalse].
  rewrite filter_deleted_none by trivial. now destruct d.
Qed.

Lemma remove_admin_false_is_noop_witness :
  snd (Db.remove_admin true team_db 4242) = team_db.
Proof. exact (remove_admin_false_is_noop true team_db 4242 eq_refl). Defined.

Lemma existsb_filter_deleted (l : list Db.AdminRow) (u v : Z) :
  existsb (fun r => Db.user_id r =? v)
          (List.filter (fun r => negb (Db.deleted u r)) l) =
  existsb (fun r => Db.user_id r =? v) l &&
  negb ((v =? u) && negb (v =? MAIN_ADMIN_ID)).
Proof.
  induction l as [|r l IH]; cbn [List.filter existsb]; trivial.
  unfold Db.deleted at 1.
  destruct (Db.user_id r =? v) eqn:Hv.
  - apply Z.eqb_eq in Hv. rewrite Hv.
    destruct ((v =? u) && negb (v =? MAIN_ADMIN_ID)) eqn:Hd;
      cbn [negb existsb orb andb].
    + rewrite IH. apply andb_false_r.
    + now rewrite Hv, Z.eqb_refl.
  - destruct ((Db.user_id r =? u) && negb (Db.user_id r =? MAIN_ADMIN_ID));
      cbn [negb existsb orb andb]; rewrite ?Hv; apply IH.
Qed.

(** What [remove_admin] leaves, in terms of [has_admin]. *)
Lemma has_admin_after_remove (ok : bool) (d : Db.Database) (u v : Z) :
  Db.has_admin (snd (Db.remove_admin ok d u)) v =
  Db.has_admin d v &&
  negb (ok && Db.sqlite_int u && (v =? u) && negb (v =? MAIN_ADMIN_ID)).
Proof.
  unfold Db.remove_admin.
  destruct (ok && Db.sqlite_int u); cbn [snd andb negb];
    [| now rewrite andb_true_r].
  unfold Db.has_admin. cbn [Db.admins]. apply existsb_filter_deleted.
Qed.

(** X6. Asked to remove a stored admin other than the main admin, with
    SQLite answering, [remove_admin] answers true, that user is no admin
    any more, every other user keeps the status he had and the sessions
    are untouched. *)
Theorem remove_admin_removes (d : Db.Database) (u : Z)
    (Hfits : Db.sqlite_int u = true)
    (Hother : u <> MAIN_ADMIN_ID)
    (Hstored : Db.has_admin d u = true) :
  fst (Db.remove_admin true d u) = true /\
  Db.has_admin (snd (Db.remove_admin true d u)) u = false /\
  (forall v, v <> u ->
     Db.has_admin (snd (Db.remove_admin true d u)) v = Db.has_admin d v) /\
  Db.sessions (snd (Db.remove_admin true d u)) = Db.sessions d.
Proof.
  split; [| split; [| split]].
  - unfold Db.remove_admin. rewrite Hfits. simpl.
    apply has_admin_spec in Hstored. destruct Hstored as [r [Hin Hr]].
    assert (Hd : In r (List.filter (Db.deleted u) (Db.admins d))).
    { apply filter_In. split; trivial. unfold Db.deleted.
      rewrite Hr, Z.eqb_refl. simpl. now apply negb_true_iff, Z.eqb_neq. }
    destruct (List.filter (Db.deleted u) (Db.admins d)); [destruct Hd |].
    reflexivity.
  - rewrite has_admin_after_remove, Hfits, Z.eqb_refl.
    apply Z.eqb_neq in Hother. rewrite Hother. apply andb_false_r.
  - intros v Hv. rewrite has_admin_after_remove.
    apply Z.eqb_neq in Hv. rewrite Hv, andb_false_r. apply andb_true_r.
  - unfold Db.remove_admin. now rewrite Hfits.
Qed.

Lemma remove_admin_removes_witness :
  fst (Db.remove_admin true team_db 1002) = true /\
  Db.has_admin (snd (Db.remove_admin true team_db 1002)) 1002 = false.
Proof.
  assert (Hother : 1002 <> MAIN_ADMIN_ID) by discriminate.
  destruct (remove_admin_removes team_db 1002 eq_refl Hother eq_refl)
    as [Htrue [Hgone _]].
  split; [exact Htrue | exact Hgone].
Defined.

(** X7. [init_database] makes the main admin an admin, changes nothing
    when run again, and leaves the other users, the stored admin rows and
    the sessions as they were. *)
Theorem init_database_bootstraps_once (t t' : Z) (d : Db.Database) :
  Db.has_admin (Db.init_database t d) MAIN_ADMIN_ID = true /\
  Db.init_database t' (Db.init_database t d) = Db.init_database t d /\
  (forall v, v <> MAIN_ADMIN_ID ->
     Db.has_admin (Db.init_database t d) v = Db.has_admin d v) /\
  (exists l, Db.admins (Db.init_database t d) = Db.admins d ++ l) /\
  Db.sessions (Db.init_database t d) = Db.sessions d.
Proof.
  assert (H1 : Db.has_admin (Db.init_database t d) MAIN_ADMIN_ID = true).
  { unfold Db.init_database.
    destruct (Db.has_admin d MAIN_ADMIN_ID) eqn:H; trivial.
    rewrite has_admin_app. cbn [existsb Db.user_id].
    rewrite Z.eqb_refl. now rewrite orb_true_r. }
  repeat split; trivial.
  - unfold Db.init_database at 1. now rewrite H1.
  - intros v Hv. unfold Db.init_database.
    destruct (Db.has_admin d MAIN_ADMIN_ID); trivial.
    rewrite has_admin_app. cbn [existsb Db.user_id].
    replace (MAIN_ADMIN_ID =? v) with false
      by (symmetry; apply Z.eqb_neq; congruence).
    now rewrite !orb_false_r.
  - unfold Db.init_database.
    destruct (Db.has_admin d MAIN_ADMIN_ID); simpl; eauto.
    exists []. now rewrite app_nil_r.
  - unfold Db.init_database. now destruct (Db.has_admin d MAIN_ADMIN_ID).
Qed.

Lemma init_database_bootstraps_once_witness :
  Db.has_admin (Db.init_database 7 team_db) 1001 = Db.has_admin team_db 1001.
Proof.
  assert (Hother : 1001 <> MAIN_ADMIN_ID) by discriminate.
  exact (proj1 (proj2 (proj2 (init_database_bootstraps_once 7 7 team_db)))
               1001 Hother).
Defined.

Lemma filter_snoc_out {A} (p : A -> bool) (l : list A) (x : A) :
  p x = false -> List.filter p (l ++ [x]) = List.filter p l.
Proof.
  intros H. rewrite List.filter_app. simpl. rewrite H. apply app_nil_r.
Qed.

(** X8. Listings are separate per creator: a session saved for creator
    [c'] leaves the listing of every other non-zero creator [c] as it
    was. *)
Theorem save_session_keeps_other_listings (ok ok' : bool) (t : Z)
    (d : Db.Database) (session ph : string) (name : option string)
    (c c' : Z)
    (Hother : c' <> c) (Hfilter : c <> 0) :
  Db.get_sessions ok' (snd (Db.save_session ok t d session ph name (Some c')))
                  (Some c) =
  Db.get_sessions ok' d (Some c).
Proof.
  unfold Db.save_session. destruct (ok && Db.sqlite_opt_int (Some c')); trivial.
  unfold Db.get_sessions, Db.creator_filter.
  apply Z.eqb_neq in Hfilter. rewrite Hfilter. simpl Db.sessions.
  rewrite filter_snoc_out; trivial.
  unfold Db.created_by_is. simpl. now apply Z.eqb_neq.
Qed.

Lemma save_session_keeps_other_listings_witness :
  Db.get_sessions true
    (snd (Db.save_session true 30 team_db "1BVtsOKsecret" "+15550100"
                          (Some "Carol Doe"%string) (Some 1001)))
    (Some 1002) =
  Db.get_sessions true team_db (Some 1002).
Proof.
  assert (Hother : 1001 <> 1002) by discriminate.
  assert (Hfilter : 1002 <> 0) by discriminate.
  exact (save_session_keeps_other_listings true true 30 team_db
           "1BVtsOKsecret" "+15550100" (Some "Carol Doe"%string) 1002 1001
           Hother Hfilter).
Defined.

Lemma sessions_wf_after_save (ok : bool) (t : Z) (d : Db.Database)
    (session ph : string) (name : option string) (by_ : option Z) :
  sessions_wf d ->
  sessions_wf (snd (Db.save_session ok t d session ph name by_)).
Proof.
  intros Hwf.
  unfold Db.save_session. destruct (ok && Db.sqlite_opt_int by_); trivial.
  destruct Hwf as [Hs Hb]. unfold sessions_wf, session_ids in *. simpl.
  rewrite map_app. simpl. split.
  - induction (map Db.id (Db.sessions d)) as [|i l IH]; simpl.
    + repeat constructor.
    + inversion Hs as [|x xs Hs' Hall]; subst.
      inversion Hb as [|y ys Hi Hb']; subst.
      constructor; [now apply IH |].
      apply List.Forall_app. split; trivial. repeat constructor. lia.
  - apply List.Forall_app. split.
    + eapply List.Forall_impl; [| exact Hb]. simpl. intros; lia.
    + repeat constructor. lia.
Qed.

(* ===================================================================== *)
(** ** Numbers in button data                                             *)
(* ===================================================================== *)

Lemma uint_val_pos (d : Decimal.uint) (acc : positive) :
  uint_val d (Z.pos acc) = Z.pos (Pos.of_uint_acc d acc).
Proof.
  revert acc. induction d; intros acc; cbn [uint_val Pos.of_uint_acc]; trivial;
    rewrite <- IHd; f_equal; lia.
Qed.

Lemma uint_val_zero (d : Decimal.uint) : uint_val d 0 = Z.of_N (Pos.of_uint d).
Proof.
  induction d; cbn [uint_val Pos.of_uint Z.of_N]; trivial;
    rewrite ?Z.mul_0_r, ?Z.add_0_l; trivial;
    now rewrite <- uint_val_pos.
Qed.

Lemma int_digits_numeral (d : Decimal.uint) (acc : Z) (b : bool) :
  PyStr.int_digits (NilEmpty.string_of_uint d) acc b =
  match d with
  | Decimal.Nil => if b then Some acc else None
  | _ => Some (uint_val d acc)
  end.
Proof.
  revert acc b.
  induction d; intros acc b; trivial;
    cbn [NilEmpty.string_of_uint PyStr.int_digits];
    change (PyStr.isdecimal_char _) with true; cbv iota;
    match goal with
    | |- context [Z.of_N (N_of_ascii ?c) - 48] =>
        let v := eval vm_compute in (Z.of_N (N_of_ascii c) - 48) in
        change (Z.of_N (N_of_ascii c) - 48) with v
    end;
    rewrite ?Z.add_0_r, IHd; destruct d; reflexivity.
Qed.

Lemma str_chars (n : Z) : PyStr.all_chars plain_char (PyStr.str n) = true.
Proof.
  assert (H : forall d,
             PyStr.all_chars plain_char (NilEmpty.string_of_uint d) = true).
  { induction d; simpl; trivial. }
  unfold PyStr.str. destruct n as [|p|p]; simpl; trivial;
    unfold NilZero.string_of_uint; destruct (Pos.to_uint p); trivial; apply H.
Qed.

Lemma plain_char_no_space (c : ascii) :
  plain_char c = true -> PyStr.isspace c = false.
Proof.
  destruct c as [[] [] [] [] [] [] [] []]; try reflexivity; discriminate.
Qed.

Lemma rstrip_plain (s : string) :
  PyStr.all_chars plain_char s = true -> PyStr.rstrip s = s.
Proof.
  induction s as [|c s IH]; cbn [PyStr.all_chars PyStr.rstrip]; trivial.
  intros H. apply andb_true_iff in H. destruct H as [Hc Hs].
  rewrite IH by trivial. destruct s; trivial.
  now rewrite (plain_char_no_space c Hc).
Qed.

Lemma strip_plain (s : string) :
  PyStr.all_chars plain_char s = true -> PyStr.strip s = s.
Proof.
  intros H. unfold PyStr.strip.
  replace (PyStr.lstrip s) with s; [now apply rstrip_plain |].
  destruct s as [|c s]; trivial. simpl in *.
  apply andb_true_iff in H. destruct H as [Hc _].
  now rewrite (plain_char_no_space c Hc).
Qed.

Lemma int_of_numeral (p : positive) :
  PyStr.int_digits (NilZero.string_of_uint (Pos.to_uint p)) 0 false =
  Some (Z.pos p).
Proof.
  pose proof (DecimalPos.Unsigned.of_to p) as Hp.
  pose proof (Unsigned.to_uint_nonnil p) as Hnil.
  unfold NilZero.string_of_uint.
  destruct (Pos.to_uint p) eqn:Hd; try (now elim Hnil);
    rewrite int_digits_numeral, uint_val_zero, Hp; reflexivity.
Qed.

Lemma plain_char_no_blank (c : ascii) :
  plain_char c = true -> PyStr.int_space c = false.
Proof.
  destruct c as [[] [] [] [] [] [] [] []]; try reflexivity; discriminate.
Qed.

(** A string of digits and minus signs has no leading blank to skip. *)
Lemma int_of_plain (s : string) :
  PyStr.all_chars plain_char s = true -> PyStr.int s = PyStr.int_literal s.
Proof.
  destruct s as [|c s]; [reflexivity |].
  cbn [PyStr.all_chars PyStr.int]. intros H.
  apply andb_true_iff in H. destruct H as [Hc _].
  now rewrite (plain_char_no_blank c Hc).
Qed.

Lemma int_of_str_holds (n : Z) : PyStr.int (PyStr.str n) = Some n.
Proof.
  rewrite int_of_plain by apply str_chars.
  unfold PyStr.int_literal, PyStr.str. destruct n as [|p|p]; trivial.
  - cbn [Z.to_int NilZero.string_of_int].
    rewrite <- (int_of_numeral p).
    pose proof (Unsigned.to_uint_nonnil p) as Hnil.
    unfold NilZero.string_of_uint.
    destruct (Pos.to_uint p); try (now elim Hnil); reflexivity.
  - cbn [Z.to_int NilZero.string_of_int].
    now rewrite int_of_numeral.
Qed.

Lemma remove_sub_plain (pat_tail s : string) :
  PyStr.all_chars plain_char s = true ->
  PyStr.remove_sub_from (String "r" pat_tail) s O = s.
Proof.
  induction s as [|c s IH]; cbn [PyStr.all_chars PyStr.remove_sub_from]; trivial.
  intros H. apply andb_true_iff in H. destruct H as [Hc Hs].
  rewrite IH by trivial.
  replace (String.prefix (String "r" pat_tail) (String c s)) with false; trivial.
  symmetry. cbn [String.prefix].
  destruct (ascii_dec "r" c) as [<- | Hne]; [discriminate Hc | reflexivity].
Qed.

Lemma button_data_parses (n : Z) :
  PyStr.int (PyStr.remove_sub "remove_admin_" ("remove_admin_" +:+ PyStr.str n))
    = Some n.
Proof.
  unfold PyStr.remove_sub.
  replace (PyStr.remove_sub_from "remove_admin_"
             ("remove_admin_" +:+ PyStr.str n) O)
    with (PyStr.remove_sub_from "remove_admin_" (PyStr.str n) O)
    by (now destruct (PyStr.str n)).
  rewrite remove_sub_plain by apply str_chars. apply int_of_str_holds.
Qed.

(** [int] reads back what [str] wrote: for every integer [n],
    [int(str(n))] is [n], also after surrounding whitespace is stripped,
    and two different integers are written differently. *)
Theorem int_reads_back_str (n m : Z) :
  PyStr.int (PyStr.str n) = Some n /\
  PyStr.int (PyStr.strip (PyStr.str n)) = Some n /\
  (PyStr.str n = PyStr.str m -> n = m).
Proof.
  split; [apply int_of_str_holds | split].
  - rewrite strip_plain by apply str_chars. apply int_of_str_holds.
  - intros H. pose proof (int_of_str_holds n) as Hn.
    rewrite H, int_of_str_holds in Hn. congruence.
Qed.

Lemma int_reads_back_str_witness : PyStr.int (PyStr.str (-1002)) = Some (-1002).
Proof. exact (proj1 (int_reads_back_str (-1002) 0)). Defined.

(* ===================================================================== *)
(** ** What every handler keeps                                           *)
(* ===================================================================== *)

(** The handlers are sequences of a few primitive steps.  For a property
    [P] of effects and a reflexive, transitive relation [R] on worlds that
    hold of the primitive steps, [P] and [R] hold of every handler. *)
Section Obeys.

Variable P : Effect -> Prop.
Variable R : World -> World -> Prop.
Hypothesis R_refl : forall w, R w w.
Hypothesis R_trans : forall a b c, R a b -> R b c -> R a c.

Lemma obeys_ret {A} (a : A) : obeys P R (ret a).
Proof. intros w. split; [constructor | apply R_refl]. Qed.

Lemma obeys_raise {A} (e : Exn) : obeys P R (@raise A e).
Proof. intros w. split; [constructor | apply R_refl]. Qed.

Lemma obeys_bind {A B} (m : M A) (k : A -> M B) :
  obeys P R m -> (forall a, obeys P R (k a)) -> obeys P R (bind m k).
Proof.
  intros Hm Hk w. unfold effects_of, after, bind.
  destruct (Hm w) as [Hp Hr]. unfold effects_of, after in Hp, Hr.
  destruct (m w) as [[tr w'] [e | a]]; simpl in *; [now split |].
  destruct (Hk a w') as [Hp' Hr']. unfold effects_of, after in Hp', Hr'.
  destruct (k a w') as [[tr' w''] r]; simpl in *. split.
  - apply List.Forall_app. now split.
  - eapply R_trans; eauto.
Qed.

Lemma obeys_try {A} (m : M A) (h : Exn -> M A) :
  obeys P R m -> (forall e, obeys P R (h e)) -> obeys P R (try_except m h).
Proof.
  intros Hm Hh w. unfold effects_of, after, try_except.
  destruct (Hm w) as [Hp Hr]. unfold effects_of, after in Hp, Hr.
  destruct (m w) as [[tr w'] [e | a]]; simpl in *; [| now split].
  destruct (Hh e w') as [Hp' Hr']. unfold effects_of, after in Hp', Hr'.
  destruct (h e w') as [[tr' w''] r]; simpl in *. split.
  - apply List.Forall_app. now split.
  - eapply R_trans; eauto.
Qed.

Lemma obeys_emit (e : Effect) : P e -> obeys P R (emit e).
Proof. intros He w. split; [repeat constructor; trivial | apply R_refl]. Qed.

Lemma obeys_get_data (u : Z) : obeys P R (get_data u).
Proof. intros w. split; [constructor | apply R_refl]. Qed.

Lemma obeys_read_db {A} (f : Db.Database -> A) : obeys P R (read_db f).
Proof. intros w. split; [constructor | apply R_refl]. Qed.

Lemma obeys_raising (r : option Exn) (m : M unit) :
  obeys P R m -> obeys P R (raising r m).
Proof. intros Hm. destruct r; simpl; trivial. apply obeys_raise. Qed.

Lemma obeys_silent {A} (m : M A) :
  (forall w, effects_of m w = []) -> (forall w, R w (after m w)) ->
  obeys P R m.
Proof. intros Hq Hr w. rewrite Hq. split; [constructor | apply Hr]. Qed.

Variable env : Env.
Variable user : User.

Hypothesis P_free : forall e, carries_no_input e = true -> P e.
Hypothesis P_send_code : forall c ph,
  normal_phone ph = true -> P (SendCodeRequest c ph).
Hypothesis P_sign_in : forall c ph code,
  PyStr.isdigit code = true -> P (SignInCode c ph code).

Hypothesis R_data : forall f w,
  quiet_setter f -> R w (after (update_data (uid user) f) w).
Hypothesis R_new_client : forall w, R w (after new_client w).
Hypothesis R_open : forall c w, R w (after (mark_open c) w).
Hypothesis R_closed : forall c w, R w (after (mark_closed c) w).
Hypothesis R_remove : forall ok target w,
  R w (after (write_db (fun d => Db.remove_admin ok d target)) w).
Hypothesis R_save : forall ok t session ph name by_ w,
  R w (after (write_db (fun d => Db.save_session ok t d session ph name by_))
             w).

Lemma obeys_update (f : UserData -> UserData) :
  quiet_setter f -> obeys P R (update_data (uid user) f).
Proof. intros Hf. apply obeys_silent; auto. Qed.

Lemma obeys_open (c : nat) : obeys P R (mark_open c).
Proof.
  intros w. split; [| apply R_open].
  repeat constructor. now apply P_free.
Qed.

Lemma obeys_closed (c : nat) : obeys P R (mark_closed c).
Proof.
  intros w. split; [| apply R_closed].
  repeat constructor. now apply P_free.
Qed.

Lemma quiet_phone (b : bool) : quiet_setter (set_expecting_phone b).
Proof. now intros d. Qed.

Lemma quiet_code (b : bool) : quiet_setter (set_expecting_code b).
Proof. now intros d. Qed.

Lemma quiet_2fa (b : bool) : quiet_setter (set_expecting_2fa b).
Proof. now intros d. Qed.

Lemma quiet_admin_off : quiet_setter (set_expecting_admin_id false).
Proof. now intros d. Qed.

Lemma quiet_client (c : option nat) : quiet_setter (set_temp_client c).
Proof. now intros d. Qed.

Lemma quiet_stored_phone (p : option string) : quiet_setter (set_phone p).
Proof. now intros d. Qed.

Ltac obey_step :=
  first
    [ apply obeys_ret | apply obeys_raise | apply obeys_get_data
    | apply obeys_read_db
    | apply obeys_emit; apply P_free; reflexivity
    | apply obeys_update;
      first [apply quiet_phone | apply quiet_code | apply quiet_2fa
            | apply quiet_admin_off | apply quiet_client
            | apply quiet_stored_phone]
    | apply obeys_open | apply obeys_closed
    | apply obeys_silent;
      [reflexivity
      | intros ?; first [apply R_new_client | apply R_save | apply R_remove]]
    | apply obeys_raising
    | apply obeys_bind; [| intros ?]
    | apply obeys_try; [| intros ?]
    | match goal with
      | |- obeys _ _ (if ?b then _ else _) => destruct b eqn:?
      | |- obeys _ _ (match ?x with _ => _ end) => destruct x eqn:?
      | |- obeys _ _ (let (_, _) := ?x in _) => destruct x eqn:?
      end ].

Lemma start_command_obeys : obeys P R (start_command env user).
Proof. unfold start_command, is_admin, log. repeat obey_step. Qed.

Lemma handle_generate_session_obeys :
  obeys P R (handle_generate_session user).
Proof. unfold handle_generate_session, log. repeat obey_step. Qed.

Lemma handle_list_sessions_obeys : obeys P R (handle_list_sessions env user).
Proof. unfold handle_list_sessions, log. repeat obey_step. Qed.

Lemma handle_remove_admin_obeys : obeys P R (handle_remove_admin env user).
Proof. unfold handle_remove_admin, log. repeat obey_step. Qed.

Lemma confirm_remove_admin_obeys (target : Z) :
  obeys P R (confirm_remove_admin env user target).
Proof. unfold confirm_remove_admin, log. repeat obey_step. Qed.

Lemma complete_session_generation_obeys (date : Z) (c : nat) (ph : string) :
  obeys P R (complete_session_generation env user date c ph).
Proof.
  unfold complete_session_generation, send_backup, bot_send_message,
    client_get_me, log.
  repeat obey_step.
Qed.

Lemma valid_phone_normal (ph : string) :
  valid_phone ph = true -> normal_phone (clean_phone ph) = true.
Proof.
  intros H. rewrite (clean_phone_of_valid ph H).
  unfold valid_phone in H. apply andb_true_iff in H. destruct H as [Hplus Hd].
  destruct ph as [|c rest]; [discriminate Hplus |].
  unfold PyStr.startswith in Hplus. simpl in Hplus.
  destruct (Ascii.eqb_spec c "+") as [-> | Hne].
  - simpl in *. exact Hd.
  - destruct c as [[] [] [] [] [] [] [] []]; try discriminate Hplus.
    now elim Hne.
Qed.

Lemma process_phone_input_obeys (text : string) :
  obeys P R (process_phone_input env user text).
Proof.
  unfold process_phone_input, client_connect, client_send_code_request, log.
  repeat obey_step.
  apply obeys_emit, P_send_code, valid_phone_normal.
  now apply negb_false_iff.
Qed.

Lemma process_code_input_obeys (date : Z) (text : string) :
  obeys P R (process_code_input env user date text).
Proof.
  unfold process_code_input, client_sign_in_code, log.
  repeat first [apply complete_session_generation_obeys | obey_step].
  apply obeys_emit, P_sign_in. now apply negb_false_iff.
Qed.

Lemma process_2fa_input_obeys (date : Z) (text : string) :
  obeys P R (process_2fa_input env user date text).
Proof.
  unfold process_2fa_input, client_sign_in_password, log.
  repeat first [apply complete_session_generation_obeys | obey_step].
Qed.

Section AdminChanges.

Hypothesis R_arm : forall w,
  R w (after (update_data (uid user) (set_expecting_admin_id true)) w).
Hypothesis R_add : forall ok t target uname fname by_ w,
  R w (after (write_db (fun d => Db.add_admin ok t d target uname fname by_))
             w).

Lemma handle_add_admin_obeys : obeys P R (handle_add_admin user).
Proof.
  unfold handle_add_admin, log.
  repeat first [apply obeys_silent; [reflexivity | apply R_arm] | obey_step].
Qed.

Lemma process_admin_id_input_obeys (text : string) (fwd : Forward) :
  obeys P R (process_admin_id_input env user text fwd).
Proof.
  unfold process_admin_id_input, is_admin, log.
  repeat first
    [ apply obeys_silent; [reflexivity | intros ?; apply R_add] | obey_step ].
Qed.

End AdminChanges.

(** Arming the admin-id prompt needs the sender to be the main admin. *)
Lemma button_callback_obeys (data : string) :
  (uid user = MAIN_ADMIN_ID -> forall w,
     R w (after (update_data (uid user) (set_expecting_admin_id true)) w)) ->
  obeys P R (button_callback env user data).
Proof.
  intros Harm. unfold button_callback, is_admin, log.
  repeat first
    [ apply handle_generate_session_obeys | apply handle_list_sessions_obeys
    | apply handle_remove_admin_obeys | apply confirm_remove_admin_obeys
    | apply handle_add_admin_obeys | obey_step ].
  apply Harm.
  match goal with
  | H : _ && _ = true |- _ =>
      apply andb_true_iff in H; destruct H as [_ H]; now apply Z.eqb_eq in H
  end.
Qed.

(** Adding an admin needs the sender's admin-id prompt to be armed. *)
Lemma handle_message_obeys (text : string) (fwd : Forward) (date : Z)
    (w : World) :
  (expecting_admin_id (data_of w (uid user)) = true ->
   forall ok t target uname fname by_ w',
     R w' (after (write_db (fun d => Db.add_admin ok t d target uname fname
                                                   by_)) w')) ->
  Forall P (effects_of (handle_message env user text fwd date) w) /\
  R w (after (handle_message env user text fwd date) w).
Proof.
  intros Hadd.
  set (body := fun d : UserData =>
         if expecting_phone d then process_phone_input env user text
         else if expecting_code d then process_code_input env user date text
         else if expecting_2fa d then process_2fa_input env user date text
         else if expecting_admin_id d
              then process_admin_id_input env user text fwd
              else ret tt).
  assert (Hbody : obeys P R (body (data_of w (uid user)))).
  { unfold body.
    destruct (expecting_phone _); [apply process_phone_input_obeys |].
    destruct (expecting_code _); [apply process_code_input_obeys |].
    destruct (expecting_2fa _); [apply process_2fa_input_obeys |].
    destruct (expecting_admin_id _); [| apply obeys_ret].
    apply process_admin_id_input_obeys. now apply Hadd. }
  destruct (Hbody w) as [Hp Hr].
  unfold effects_of, after, handle_message, try_except, bind, is_admin,
    read_db, get_data, ret, log, emit in *.
  cbn [fst snd] in *.
  destruct (Db.is_admin _ _ _); cbn [negb fst snd app].
  - fold (body (data_of w (uid user))).
    destruct (body (data_of w (uid user)) w) as [[tr w'] [e | a]];
      cbn [fst snd app] in *; split; trivial.
    apply List.Forall_app. split; trivial.
    repeat constructor. now apply P_free.
  - split; [constructor | apply R_refl].
Qed.

Lemma handle_obeys (u : Update) (w : World) :
  sender u = user ->
  (uid user = MAIN_ADMIN_ID -> forall w',
     R w' (after (update_data (uid user) (set_expecting_admin_id true)) w')) ->
  (expecting_admin_id (data_of w (uid user)) = true ->
   forall ok t target uname fname by_ w',
     R w' (after (write_db (fun d => Db.add_admin ok t d target uname fname
                                                   by_)) w')) ->
  Forall P (trace_of env u w) /\ R w (world_after env u w).
Proof.
  intros Hu Harm Hadd. unfold trace_of, world_after.
  destruct u as [user' | user' data | user' text fwd date]; simpl in Hu;
    subst user'; cbn [handle].
  - apply start_command_obeys.
  - now apply button_callback_obeys.
  - now apply handle_message_obeys.
Qed.

End Obeys.

(** A relation every update keeps is kept by every run. *)
Lemma run_keeps (R : World -> World -> Prop) :
  (forall w, R w w) -> (forall a b c, R a b -> R b c -> R a c) ->
  (forall env u w, R w (world_after env u w)) ->
  forall steps w, R w (snd (run steps w)).
Proof.
  intros Hrefl Htrans Hstep steps.
  induction steps as [|[env u] steps IH]; intros w; cbn [run].
  - apply Hrefl.
  - specialize (IH (world_after env u w)).
    destruct (run steps (world_after env u w)) as [tr w']. cbn [snd] in *.
    eapply Htrans; [apply Hstep | exact IH].
Qed.

(* ===================================================================== *)
(** ** Invariants of every run                                            *)
(* ===================================================================== *)

(** A reflexive, transitive relation on databases that the three writing
    methods keep is kept by every update. *)
Lemma handle_keeps_db (Rd : Db.Database -> Db.Database -> Prop) :
  (forall d, Rd d d) -> (forall a b c, Rd a b -> Rd b c -> Rd a c) ->
  (forall ok target d, Rd d (snd (Db.remove_admin ok d target))) ->
  (forall ok t session ph name by_ d,
     Rd d (snd (Db.save_session ok t d session ph name by_))) ->
  (forall ok t target uname fname by_ d,
     Rd d (snd (Db.add_admin ok t d target uname fname by_))) ->
  forall env u w, Rd (db w) (db (world_after env u w)).
Proof.
  intros Hrefl Htrans Hremove Hsave Hadd env u w.
  apply (handle_obeys (fun _ => True) (fun a b => Rd (db a) (db b)))
    with (user := sender u); trivial; intros; try apply Hrefl.
  - eapply Htrans; eauto.
  - apply Hremove.
  - apply Hsave.
  - apply Hadd.
Qed.

Lemma has_admin_after_save (ok : bool) (t : Z) (d : Db.Database)
    (session ph : string) (name : option string) (by_ : option Z) (v : Z) :
  Db.has_admin (snd (Db.save_session ok t d session ph name by_)) v =
  Db.has_admin d v.
Proof.
  unfold Db.save_session. now destruct (ok && Db.sqlite_opt_int by_).
Qed.

Lemma admin_ids_after_save (ok : bool) (t : Z) (d : Db.Database)
    (session ph : string) (name : option string) (by_ : option Z) :
  admin_ids (snd (Db.save_session ok t d session ph name by_)) = admin_ids d.
Proof.
  unfold Db.save_session. now destruct (ok && Db.sqlite_opt_int by_).
Qed.

(** X9. Whatever updates arrive, in whatever order and whatever the
    outside world answers, the main admin stays an admin and no user id
    gets a second row in the admins table. *)
Theorem admins_table_is_sound_in_every_run (steps : list (Env * Update))
    (w : World)
    (Hmain : Db.has_admin (db w) MAIN_ADMIN_ID = true)
    (Huniq : List.NoDup (admin_ids (db w))) :
  Db.has_admin (db (snd (run steps w))) MAIN_ADMIN_ID = true /\
  List.NoDup (admin_ids (db (snd (run steps w)))).
Proof.
  set (Rd := fun d d' : Db.Database =>
         (Db.has_admin d MAIN_ADMIN_ID = true ->
          Db.has_admin d' MAIN_ADMIN_ID = true) /\
         (List.NoDup (admin_ids d) -> List.NoDup (admin_ids d'))).
  assert (Hrun : Rd (db w) (db (snd (run steps w)))).
  { apply (run_keeps (fun a b => Rd (db a) (db b))).
    - intros a. now split.
    - intros a b c [H1 H2] [H3 H4]. split; auto.
    - apply handle_keeps_db.
      + intros d. now split.
      + intros a b c [H1 H2] [H3 H4]. split; auto.
      + intros ok target d. split.
        * intros H. rewrite has_admin_after_remove, H, Z.eqb_refl.
          cbn [negb]. now rewrite andb_false_r.
        * apply nodup_after_remove.
      + intros ok t session ph name by_ d. split.
        * now rewrite has_admin_after_save.
        * now rewrite admin_ids_after_save.
      + intros ok t target uname fname by_ d. split.
        * intros H. now rewrite has_admin_after_add, H.
        * apply nodup_after_add. }
  destruct Hrun as [H1 H2]. split; auto.
Qed.

Lemma admins_table_is_sound_in_every_run_witness :
  Db.has_admin (db (snd (run alice_cancels team_world))) MAIN_ADMIN_ID = true.
Proof.
  assert (Huniq : List.NoDup (admin_ids (db team_world))).
  { repeat constructor; simpl; intuition discriminate. }
  exact (proj1 (admins_table_is_sound_in_every_run alice_cancels team_world
                  eq_refl Huniq)).
Defined.

Lemma sessions_after_remove (ok : bool) (d : Db.Database) (u : Z) :
  Db.sessions (snd (Db.remove_admin ok d u)) = Db.sessions d /\
  Db.session_seq (snd (Db.remove_admin ok d u)) = Db.session_seq d.
Proof. unfold Db.remove_admin. now destruct (ok && Db.sqlite_int u). Qed.

Lemma sessions_after_add (ok : bool) (t : Z) (d : Db.Database) (u : Z)
    (uname fname : option string) (by_ : option Z) :
  Db.sessions (snd (Db.add_admin ok t d u uname fname by_)) = Db.sessions d /\
  Db.session_seq (snd (Db.add_admin ok t d u uname fname by_)) =
    Db.session_seq d.
Proof.
  unfold Db.add_admin.
  now destruct (ok && Db.sqlite_int u && Db.sqlite_opt_int by_).
Qed.

Lemma sessions_wf_same (d d' : Db.Database) :
  Db.sessions d' = Db.sessions d -> Db.session_seq d' = Db.session_seq d ->
  sessions_wf d -> sessions_wf d'.
Proof.
  unfold sessions_wf, session_ids. intros -> ->. trivial.
Qed.

(** X10. Stored sessions are only ever appended to: after any run the
    sessions table starts with the rows it had, unchanged and in the same
    order; and if the ids were increasing and within the AUTOINCREMENT
    counter, they still are (so no id is used twice). *)
Theorem sessions_only_grow_in_every_run (steps : list (Env * Update))
    (w : World) (Hwf : sessions_wf (db w)) :
  sessions_extended w (snd (run steps w)) /\
  sessions_wf (db (snd (run steps w))).
Proof.
  set (Rd := fun d d' : Db.Database =>
         (exists l, Db.sessions d' = Db.sessions d ++ l) /\
         (sessions_wf d -> sessions_wf d')).
  assert (Hrun : Rd (db w) (db (snd (run steps w)))).
  { assert (Hrefl : forall d, Rd d d).
    { intros d. split; trivial. exists []. now rewrite app_nil_r. }
    assert (Htrans : forall a b c, Rd a b -> Rd b c -> Rd a c).
    { intros a b c [[l1 H1] H2] [[l2 H3] H4]. split; auto.
      exists (l1 ++ l2). now rewrite H3, H1, app_assoc. }
    apply (run_keeps (fun a b => Rd (db a) (db b)));
      [intros a; apply Hrefl | intros a b c; apply Htrans |].
    apply handle_keeps_db; [exact Hrefl | exact Htrans | | |].
    - intros ok target d. destruct (sessions_after_remove ok d target).
      split; [exists []; now rewrite app_nil_r | now apply sessions_wf_same].
    - intros ok t session ph name by_ d. split.
      + unfold Db.save_session. destruct (ok && Db.sqlite_opt_int by_);
          simpl; eauto. exists []. now rewrite app_nil_r.
      + apply sessions_wf_after_save.
    - intros ok t target uname fname by_ d.
      destruct (sessions_after_add ok t d target uname fname by_).
      split; [exists []; now rewrite app_nil_r | now apply sessions_wf_same]. }
  destruct Hrun as [H1 H2]. split; auto.
Qed.

Lemma sessions_only_grow_in_every_run_witness :
  session_ids (db bob_2fa_without_client) = [1] /\
  sessions_extended bob_2fa_without_client
                    (snd (run alice_generates bob_2fa_without_client)) /\
  sessions_wf (db (snd (run alice_generates bob_2fa_without_client))).
Proof.
  assert (Hids : session_ids (db bob_2fa_without_client) = [1])
    by (vm_compute; reflexivity).
  split; [exact Hids |].
  assert (Hwf : sessions_wf (db bob_2fa_without_client)).
  { unfold sessions_wf. rewrite Hids. split; repeat constructor.
    vm_compute. discriminate. }
  exact (sessions_only_grow_in_every_run alice_generates
           bob_2fa_without_client Hwf).
Defined.

(** In that run the row of bob stays first and alice's session gets the
    next id. *)
Example second_session_gets_next_id :
  session_ids (db (snd (run alice_generates bob_2fa_without_client))) = [1; 2].
Proof. vm_compute. reflexivity. Qed.

Lemma data_of_update_other (u v : Z) (f : UserData -> UserData) (w : World) :
  v <> u -> data_of (after (update_data u f) w) v = data_of w v.
Proof.
  intros Hne. unfold after, update_data, data_of. cbn [fst snd user_data].
  rewrite lookup_insert_ne; trivial. congruence.
Qed.

Lemma data_of_update_same (u : Z) (f : UserData -> UserData) (w : World) :
  data_of (after (update_data u f) w) u = f (data_of w u).
Proof.
  unfold after, update_data, data_of. cbn [fst snd user_data].
  now rewrite lookup_insert_eq.
Qed.

(** An update leaves the user data of everyone but its sender alone. *)
Lemma handle_frames_others (env : Env) (u : Update) (w : World) (v : Z) :
  v <> uid (sender u) -> data_of (world_after env u w) v = data_of w v.
Proof.
  intros Hne.
  apply (handle_obeys (fun _ => True)
           (fun a b => data_of b v = data_of a v))
    with (user := sender u); trivial; intros;
    try reflexivity; try (now apply data_of_update_other).
  congruence.
Qed.

(** X11. Conversations are separate: an update changes neither the
    flags, nor the stored client, nor the stored phone number of any user
    but its sender, so everyone else stays in the state he was in. *)
Theorem update_touches_only_its_sender (env : Env) (u : Update) (w : World)
    (v : Z) (Hother : v <> uid (sender u)) :
  data_of (world_after env u w) v = data_of w v /\
  state_of (data_of (world_after env u w) v) = state_of (data_of w v).
Proof.
  rewrite (handle_frames_others env u w v Hother). now split.
Qed.

Lemma update_touches_only_its_sender_witness :
  state_of (data_of (world_after calm (CallbackQuery bob "generate_session")
                                 alice_awaiting_code) 1001) =
  state_of (data_of alice_awaiting_code 1001).
Proof.
  assert (Hother : 1001 <> uid (sender (CallbackQuery bob "generate_session")))
    by discriminate.
  exact (proj2 (update_touches_only_its_sender calm
                  (CallbackQuery bob "generate_session") alice_awaiting_code
                  1001 Hother)).
Defined.

(** X12. Nothing unvalidated reaches the provider: in every run, each
    code request carries "+" followed by digits only (no space, no dash),
    and each sign-in with a code carries digits only. *)
Theorem provider_gets_validated_input (steps : list (Env * Update))
    (w : World) :
  Forall validated (fst (run steps w)).
Proof.
  revert w. induction steps as [|[env u] steps IH]; intros w; cbn [run].
  - constructor.
  - specialize (IH (world_after env u w)).
    destruct (run steps (world_after env u w)) as [tr w']. cbn [fst] in *.
    apply List.Forall_app. split; trivial.
    apply (handle_obeys validated (fun _ _ => True))
      with (user := sender u); trivial.
    intros [] H; simpl; trivial; discriminate H.
Qed.

(** The admin-id prompt of a user other than the sender, or of a sender
    who is not the main admin, is not armed by an update; and an update
    whose sender has no armed prompt adds no admin. *)
Lemma plain_update_adds_no_admin (env : Env) (u : Update) (w : World) :
  uid (sender u) <> MAIN_ADMIN_ID ->
  expecting_admin_id (data_of w (uid (sender u))) = false ->
  no_new_admin w (world_after env u w) /\
  (forall v, expecting_admin_id (data_of w v) = false ->
             expecting_admin_id (data_of (world_after env u w) v) = false).
Proof.
  intros Hplain Hoff.
  set (R := fun a b : World =>
         no_new_admin a b /\
         (forall v, expecting_admin_id (data_of a v) = false ->
                    expecting_admin_id (data_of b v) = false)).
  assert (Hrefl : forall a, R a a) by (intros a; split; intros ?; trivial).
  assert (Hsame : forall a b,
            db b = db a -> user_data b = user_data a -> R a b).
  { intros a b Hdb Hud. split.
    - intros x. now rewrite Hdb.
    - intros v. unfold data_of. now rewrite Hud. }
  assert (Htrans : forall a b c, R a b -> R b c -> R a c).
  { intros a b c [H1 H2] [H3 H4]. split.
    - intros x Hx. apply H1, H3, Hx.
    - intros v Hv. apply H4, H2, Hv. }
  assert (Hdata : forall f a, quiet_setter f ->
                    R a (after (update_data (uid (sender u)) f) a)).
  { intros f a Hquiet. split; [intros x Hx; exact Hx |].
    intros v Hv. destruct (Z.eq_dec v (uid (sender u))) as [-> | Hne].
    - rewrite data_of_update_same. now apply Hquiet.
    - now rewrite data_of_update_other. }
  assert (Hremove : forall ok target a,
            R a (after (write_db (fun d => Db.remove_admin ok d target)) a)).
  { intros ok target a. split.
    - intros x. unfold after, write_db. cbn [fst snd db].
      rewrite has_admin_after_remove. intros Hx.
      apply andb_true_iff in Hx. tauto.
    - intros v Hv. exact Hv. }
  assert (Hsave : forall ok t session ph name by_ a,
            R a (after (write_db (fun d => Db.save_session ok t d session ph
                                                          name by_)) a)).
  { intros ok t session ph name by_ a. split.
    - intros x. unfold after, write_db. cbn [fst snd db].
      now rewrite has_admin_after_save.
    - intros v Hv. exact Hv. }
  refine (proj2 (handle_obeys (fun _ => True) R Hrefl Htrans env (sender u)
                   (fun _ _ => I) (fun _ _ _ => I) (fun _ _ _ _ => I)
                   Hdata _ _ _ Hremove Hsave u w eq_refl _ _)).
  - intros a. now apply Hsame.
  - intros c a. now apply Hsame.
  - intros c a. now apply Hsame.
  - intros Hmain. contradiction.
  - intros Hon. congruence.
Qed.

(** The prompt stays reserved to the main admin across any update. *)
Lemma prompt_stays_reserved (env : Env) (u : Update) (w : World) :
  prompt_reserved w -> prompt_reserved (world_after env u w).
Proof.
  intros Hres v Hv.
  destruct (Z.eq_dec (uid (sender u)) MAIN_ADMIN_ID) as [Hmain | Hplain].
  - rewrite handle_frames_others by congruence. now apply Hres.
  - apply (plain_update_adds_no_admin env u w Hplain).
    + now apply Hres.
    + now apply Hres.
Qed.

(** X13. Only the main admin is ever asked for an admin id: from the
    start of the bot, after any run, no other user has the admin-id prompt
    armed, so no text of his is read as a candidate admin. *)
Theorem only_main_admin_is_prompted (steps : list (Env * Update)) (t v : Z)
    (Hother : v <> MAIN_ADMIN_ID) :
  expecting_admin_id (data_of (snd (run steps (initial_world t))) v) = false /\
  state_of (data_of (snd (run steps (initial_world t))) v) <> AwaitingAdminID.
Proof.
  assert (Hres : prompt_reserved (snd (run steps (initial_world t)))).
  { apply (run_keeps (fun a b => prompt_reserved a -> prompt_reserved b)).
    - trivial.
    - auto.
    - intros env u w. apply prompt_stays_reserved.
    - intros x Hx. reflexivity. }
  specialize (Hres v Hother).
  set (d := data_of (snd (run steps (initial_world t))) v) in *.
  split; trivial.
  unfold state_of. rewrite Hres.
  destruct (expecting_phone d), (expecting_code d), (expecting_2fa d);
    discriminate.
Qed.

Lemma only_main_admin_is_prompted_witness :
  expecting_admin_id
    (data_of (snd (run [(calm, CallbackQuery alice "add_admin")]
                       (initial_world 0))) 1001) = false.
Proof.
  assert (Hother : 1001 <> MAIN_ADMIN_ID) by discriminate.
  exact (proj1 (only_main_admin_is_prompted
                  [(calm, CallbackQuery alice "add_admin")] 0 1001 Hother)).
Defined.

(** X14. Admins other than the main admin cannot add admins: in a run
    whose updates all come from other users than the main admin, started
    where only the main admin may have the prompt armed, every admin at
    the end was an admin at the beginning. *)
Theorem plain_admins_never_add_admins (steps : list (Env * Update))
    (w : World)
    (Hres : prompt_reserved w) (Hplain : all_plain steps) :
  no_new_admin w (snd (run steps w)).
Proof.
  revert w Hres. induction Hplain as [|[env u] steps Hu Hrest IH];
    intros w Hres; cbn [run].
  - intros x Hx. exact Hx.
  - cbn [snd] in Hu.
    specialize (IH (world_after env u w) (prompt_stays_reserved env u w Hres)).
    destruct (run steps (world_after env u w)) as [tr w']. cbn [snd] in *.
    intros x Hx.
    apply (plain_update_adds_no_admin env u w Hu); [now apply Hres |].
    now apply IH.
Qed.

Lemma plain_admins_never_add_admins_witness :
  no_new_admin team_world
    (snd (run [(calm, CallbackQuery alice "add_admin");
               (calm, TextMessage alice "4242" NotForwarded 40)]
              team_world)).
Proof.
  assert (Hres : prompt_reserved team_world).
  { intros v _. reflexivity. }
  assert (Hplain : all_plain [(calm, CallbackQuery alice "add_admin");
                              (calm, TextMessage alice "4242" NotForwarded 40)]).
  { repeat constructor; discriminate. }
  exact (plain_admins_never_add_admins _ team_world Hres Hplain).
Defined.

(* ===================================================================== *)
(** ** The steps of the conversation, one by one                          *)
(* ===================================================================== *)


Lemma awaiting_code_flags (d : UserData) :
  state_of d = AwaitingCode ->
  expecting_phone d = false /\ expecting_code d = true.
Proof.
  unfold state_of.
  destruct (expecting_phone d), (expecting_code d), (expecting_2fa d),
    (expecting_admin_id d); intros H; try discriminate H; auto.
Qed.

Lemma awaiting_2fa_flags (d : UserData) :
  state_of d = AwaitingTwoFactor ->
  expecting_phone d = false /\ expecting_code d = false /\
  expecting_2fa d = true.
Proof.
  unfold state_of.
  destruct (expecting_phone d), (expecting_code d), (expecting_2fa d),
    (expecting_admin_id d); intros H; try discriminate H; auto.
Qed.

Lemma awaiting_admin_id_flags (d : UserData) :
  state_of d = AwaitingAdminID ->
  expecting_phone d = false /\ expecting_code d = false /\
  expecting_2fa d = false /\ expecting_admin_id d = true.
Proof.
  unfold state_of.
  destruct (expecting_phone d), (expecting_code d), (expecting_2fa d),
    (expecting_admin_id d); intros H; try discriminate H; auto.
Qed.

Lemma data_of_insert (d0 : Db.Database) (ud : gmap Z UserData)
    (oc : gset nat) (nc : nat) (u : Z) (x : UserData) :
  data_of {| db := d0; user_data := <[u := x]> ud; open_clients := oc;
             next_client := nc |} u = x.
Proof. unfold data_of. cbn [user_data]. now rewrite lookup_insert_eq. Qed.

Lemma stored_flow_of_set_code (b : bool) (d : UserData) :
  stored_flow (set_expecting_code b d) = stored_flow d.
Proof. reflexivity. Qed.

Lemma stored_flow_of_set_2fa (b : bool) (d : UserData) :
  stored_flow (set_expecting_2fa b d) = stored_flow d.
Proof. reflexivity. Qed.



Lemma admin_fits_sqlite (ok : bool) (d : Db.Database) (u : Z) :
  Db.is_admin ok d u = true -> Db.sqlite_int u = true.
Proof.
  unfold Db.is_admin. destruct ok, (Db.sqlite_int u); trivial; discriminate.
Qed.

Ltac enter_message Hgate :=
  unfold trace_of, world_after, handle, handle_message, try_except, bind,
    is_admin, read_db, get_data, ret;
  cbn [fst snd]; rewrite Hgate; cbn [negb fst snd].

(** X15. The gate fails closed: while SQLite does not answer the admin
    check, no update of anyone, the main admin included, gets a reply or
    changes anything. *)
Theorem gate_fails_closed (env : Env) (u : Update) (w : World)
    (Hdown : storage env GateCheck = false) :
  outbound (trace_of env u w) = [] /\ world_after env u w = w.
Proof.
  assert (Hgate : forall d x, Db.is_admin (storage env GateCheck) d x = false).
  { intros d x. unfold Db.is_admin. now rewrite Hdown. }
  destruct u as [user | user data | user text fwd date];
    run_handler; rewrite Hgate; split; reflexivity.
Qed.

Lemma gate_fails_closed_witness :
  outbound (trace_of storage_down (StartCommand main_admin) team_world) = [] /\
  world_after storage_down (StartCommand main_admin) team_world = team_world.
Proof.
  exact (gate_fails_closed storage_down (StartCommand main_admin) team_world
                           eq_refl).
Defined.

(** X16. A text sent outside a flow is ignored: when SQLite answers the
    admin check and the sender is in Idle, a text message has no effect at
    all: nothing is sent, nothing is logged and nothing changes. *)
Theorem idle_text_is_ignored (env : Env) (user : User) (text : string)
    (fwd : Forward) (date : Z) (w : World)
    (Hanswered : storage env GateCheck = true)
    (Hfits : Db.sqlite_int (uid user) = true)
    (Hidle : state_of (data_of w (uid user)) = Idle) :
  trace_of env (TextMessage user text fwd date) w = [] /\
  world_after env (TextMessage user text fwd date) w = w.
Proof.
  unfold state_of in Hidle.
  unfold trace_of, world_after, handle, handle_message, try_except, bind,
    is_admin, read_db, get_data, ret.
  cbn [fst snd].
  destruct (Db.is_admin _ _ _); cbn [negb fst snd]; [| now split].
  destruct (expecting_phone _); [discriminate |].
  destruct (expecting_code _); [discriminate |].
  destruct (expecting_2fa _); [discriminate |].
  destruct (expecting_admin_id _); [discriminate |].
  now split.
Qed.

Lemma idle_text_is_ignored_witness :
  trace_of calm (TextMessage alice "+15550100" NotForwarded 40) team_world
    = [].
Proof.
  exact (proj1 (idle_text_is_ignored calm alice "+15550100" NotForwarded 40
                  team_world eq_refl eq_refl eq_refl)).
Defined.

Lemma button_data_is_no_menu_entry (x : string) :
  String.eqb ("remove_admin_" +:+ x) "generate_session" = false /\
  String.eqb ("remove_admin_" +:+ x) "list_sessions" = false /\
  String.eqb ("remove_admin_" +:+ x) "add_admin" = false /\
  String.eqb ("remove_admin_" +:+ x) "remove_admin" = false /\
  PyStr.startswith "remove_admin_" ("remove_admin_" +:+ x) = true.
Proof. repeat split; try reflexivity. now destruct x. Qed.

Lemma confirm_remove_admin_returns (env : Env) (user : User) (n : Z)
    (w : World) :
  snd (confirm_remove_admin env user n w) = inr tt.
Proof.
  unfold confirm_remove_admin, try_except, bind, write_db, emit, log.
  cbn [fst snd]. now destruct (fst (Db.remove_admin _ _ _)).
Qed.

(** X17. The button the removal menu shows for an admin row carries
    "remove_admin_" and the user id in decimal, and pressing it does,
    after the acknowledgement, exactly what [confirm_remove_admin] does for
    that user id: the id written into the button is the id read back. *)
Theorem listed_button_removes_its_admin (env : Env) (user : User) (w : World)
    (r : Db.AdminRow)
    (Hgate : Db.is_admin (storage env GateCheck) (db w) (uid user) = true) :
  map callback_data (remove_button (Db.admin_dict r)) =
    ["remove_admin_" +:+ PyStr.str (Db.user_id r)] /\
  trace_of env (CallbackQuery user
                  ("remove_admin_" +:+ PyStr.str (Db.user_id r))) w =
    Answer :: effects_of (confirm_remove_admin env user (Db.user_id r)) w /\
  world_after env (CallbackQuery user
                     ("remove_admin_" +:+ PyStr.str (Db.user_id r))) w =
    after (confirm_remove_admin env user (Db.user_id r)) w.
Proof.
  split; [reflexivity |].
  pose proof (button_data_parses (Db.user_id r)) as Hparse.
  destruct (button_data_is_no_menu_entry (PyStr.str (Db.user_id r)))
    as [H1 [H2 [H3 [H4 H5]]]].
  pose proof (confirm_remove_admin_returns env user (Db.user_id r) w) as Hret.
  unfold trace_of, world_after, effects_of, after, handle, button_callback,
    try_except at 1, bind, is_admin, read_db, emit.
  unfold try_except at 1.
  cbn [fst snd]. rewrite Hgate. cbn [negb].
  rewrite H1, H2, H3, H4, H5, Hparse. cbn [andb].
  destruct (confirm_remove_admin env user (Db.user_id r) w) as [[tr w'] res].
  cbn [snd] in Hret. subst res. now split.
Qed.

Lemma listed_button_removes_its_admin_witness :
  world_after calm (CallbackQuery main_admin "remove_admin_1002") team_world =
  after (confirm_remove_admin calm main_admin 1002) team_world.
Proof.
  exact (proj2 (proj2 (listed_button_removes_its_admin calm main_admin
                         team_world bob_row eq_refl))).
Defined.

(** The confirmation for an id that was typed carries no name. *)
Lemma admin_added_by_id_is_accepted (env : Env) (n : Z) :
  refused env (TAdminAdded n "Unknown" "None") = None.
Proof. reflexivity. Qed.

(** X18. A sender whose admin-id prompt is armed and who sends the
    decimal id of a user who is not an admin yet makes that user an admin:
    the reply confirms it, the status of every other user is unchanged and
    the sender is back in Idle. *)
Theorem armed_admin_adds_admin_by_id (env : Env) (user : User) (text : string)
    (date n : Z) (w : World)
    (Hgate : Db.is_admin (storage env GateCheck) (db w) (uid user) = true)
    (Hstate : state_of (data_of w (uid user)) = AwaitingAdminID)
    (Hparse : PyStr.int (PyStr.strip text) = Some n)
    (Hnonzero : n <> 0)
    (Hnew : Db.has_admin (db w) n = false)
    (Hfits : Db.sqlite_int n = true)
    (Hstorage : storage env AddAdminCall = true) :
  trace_of env (TextMessage user text NotForwarded date) w =
    [Reply (uid user) (TAdminAdded n "Unknown" "None") back_to_main_kb;
     Log Info "Admin added"] /\
  Db.has_admin (db (world_after env (TextMessage user text NotForwarded date)
                                w)) n = true /\
  (forall v, v <> n ->
     Db.has_admin (db (world_after env (TextMessage user text NotForwarded
                                                    date) w)) v =
     Db.has_admin (db w) v) /\
  state_of (data_of (world_after env (TextMessage user text NotForwarded date)
                                 w) (uid user)) = Idle.
Proof.
  destruct (awaiting_admin_id_flags _ Hstate) as [Hp [Hc [H2 Ha]]].
  pose proof (admin_fits_sqlite _ _ _ Hgate) as Huser.
  assert (Hfst : fst (Db.add_admin true (now env) (db w) n None None
                                   (Some (uid user))) = true).
  { unfold Db.add_admin. cbn [Db.sqlite_opt_int]. now rewrite Hfits, Huser. }
  assert (Hadd : Db.add_admin (storage env AddAdminCall) (now env) (db w) n
                   None None (Some (uid user)) =
                 (true, snd (Db.add_admin true (now env) (db w) n None None
                                          (Some (uid user))))).
  { rewrite Hstorage.
    destruct (Db.add_admin true (now env) (db w) n None None
                           (Some (uid user))) as [b d'].
    cbn [fst snd] in *. now subst b. }
  enter_message Hgate. rewrite Hp, Hc, H2, Ha.
  unfold process_admin_id_input, reply_text, try_except, bind, update_data,
    extract_admin, is_admin, read_db, write_db, emit, log.
  rewrite Hparse. cbn [fst snd db].
  destruct n as [|p|p]; [now elim Hnonzero | |];
    cbn [fst snd db];
    rewrite (is_admin_absent _ _ _ Hnew);
    cbn [fst snd db];
    rewrite Hadd; unfold emit; cbn [fst snd app db PyStr.or_else];
    rewrite admin_added_by_id_is_accepted; unfold raising, ret;
    cbn [fst snd app db];
    (split; [reflexivity |]);
    (split; [rewrite has_admin_after_add, Hfst, Z.eqb_refl;
             apply orb_true_r |]);
    (split; [intros v Hv; rewrite has_admin_after_add, Hfst; cbn [andb];
             replace (_ =? v) with false
               by (symmetry; apply Z.eqb_neq; congruence);
             apply orb_false_r |]);
    cbn [fst snd user_data db open_clients next_client];
    rewrite ?data_of_insert; unfold state_of, set_expecting_admin_id;
    cbn [expecting_phone expecting_code expecting_2fa expecting_admin_id];
    now rewrite Hp, Hc, H2.
Qed.

Lemma armed_admin_adds_admin_by_id_witness :
  Db.has_admin
    (db (world_after calm (TextMessage main_admin " 4242 " NotForwarded 40)
                     main_awaiting_admin_id)) 4242 = true.
Proof.
  assert (Hnonzero : 4242 <> 0) by discriminate.
  exact (proj1 (proj2
    (armed_admin_adds_admin_by_id calm main_admin " 4242 " 40 4242
       main_awaiting_admin_id eq_refl eq_refl eq_refl Hnonzero eq_refl
       eq_refl eq_refl))).
Defined.

(** X19. A candidate who is an admin already is refused: the reply says
    so, the database is unchanged (the stored row is not replaced) and the
    sender is back in Idle. *)
Theorem known_admin_is_not_added_again (env : Env) (user : User)
    (text : string) (date n : Z) (w : World)
    (Hgate : Db.is_admin (storage env GateCheck) (db w) (uid user) = true)
    (Hstate : state_of (data_of w (uid user)) = AwaitingAdminID)
    (Hparse : PyStr.int (PyStr.strip text) = Some n)
    (Hnonzero : n <> 0)
    (Hknown : Db.is_admin (storage env DuplicateCheck) (db w) n = true) :
  trace_of env (TextMessage user text NotForwarded date) w =
    [Reply (uid user) TAlreadyAdmin back_to_main_kb] /\
  db (world_after env (TextMessage user text NotForwarded date) w) = db w /\
  state_of (data_of (world_after env (TextMessage user text NotForwarded date)
                                 w) (uid user)) = Idle.
Proof.
  destruct (awaiting_admin_id_flags _ Hstate) as [Hp [Hc [H2 Ha]]].
  enter_message Hgate. rewrite Hp, Hc, H2, Ha.
  unfold process_admin_id_input, try_except, bind, update_data, extract_admin,
    is_admin, read_db, write_db, emit, log.
  rewrite Hparse. cbn [fst snd db].
  destruct n as [|p|p]; [now elim Hnonzero | |];
    cbn [fst snd db]; rewrite Hknown; cbn [fst snd app db];
    rewrite !data_of_insert;
    (split; [reflexivity |]); (split; [reflexivity |]);
    unfold state_of, set_expecting_admin_id;
    cbn [expecting_phone expecting_code expecting_2fa expecting_admin_id];
    now rewrite Hp, Hc, H2.
Qed.

Lemma known_admin_is_not_added_again_witness :
  db (world_after calm (TextMessage main_admin "1001" NotForwarded 40)
                  main_awaiting_admin_id) = db main_awaiting_admin_id.
Proof.
  assert (Hnonzero : 1001 <> 0) by discriminate.
  exact (proj1 (proj2
    (known_admin_is_not_added_again calm main_admin "1001" 40 1001
       main_awaiting_admin_id eq_refl eq_refl eq_refl Hnonzero eq_refl))).
Defined.



(** X21. In AwaitingCode a well-formed code that the provider accepts
    completes the generation: the stored client is disconnected and
    forgotten, no client is connected, the session row is appended with
    the session string, phone, account name, creator and time, and the
    edit that shows the session to the requester is made. *)
Theorem accepted_code_completes (env : Env) (user : User) (text : string)
    (fwd : Forward) (date : Z) (w : World) (c : nat) (ph : string) (me : Me)
    (Hgate : Db.is_admin (storage env GateCheck) (db w) (uid user) = true)
    (Hstate : state_of (data_of w (uid user)) = AwaitingCode)
    (Hdigits : PyStr.isdigit (clean_code text) = true)
    (Hflow : stored_flow (data_of w (uid user)) = Some (c, ph))
    (Hsign : sign_in env = None)
    (Hauth : is_user_authorized env = true)
    (Hme : get_me env = inr me)
    (Hstorage : storage env SaveSessionCall = true) :
  connects (trace_of env (TextMessage user text fwd date) w) = [] /\
  disconnects (trace_of env (TextMessage user text fwd date) w) = [c] /\
  In (Edit (uid user)
           (TSessionGenerated (account_name_of me) ph (session_save env))
           back_to_main_kb)
     (trace_of env (TextMessage user text fwd date) w) /\
  ~ elem_of c (open_clients (world_after env (TextMessage user text fwd date)
                                         w)) /\
  temp_client (data_of (world_after env (TextMessage user text fwd date) w)
                       (uid user)) = None /\
  expecting_code (data_of (world_after env (TextMessage user text fwd date) w)
                          (uid user)) = false /\
  Db.sessions (db (world_after env (TextMessage user text fwd date) w)) =
    Db.sessions (db w) ++
    [{| Db.id := Db.session_seq (db w) + 1;
        Db.session_string := session_save env;
        Db.phone_number := ph;
        Db.account_name := Some (account_name_of me);
        Db.created_by := Some (uid user);
        Db.date_created := now env |}].
Proof.
  destruct (awaiting_code_flags _ Hstate) as [Hp Hc].
  pose proof (admin_fits_sqlite _ _ _ Hgate) as Huser.
  enter_message Hgate. rewrite Hp, Hc.
  unfold process_code_input, client_sign_in_code, try_except, bind,
    update_data, get_data, raising, raise, emit.
  rewrite Hdigits. cbn [negb fst snd]. rewrite data_of_insert.
  rewrite stored_flow_of_set_code, Hflow. cbn [fst snd app].
  rewrite Hsign, Hauth. cbn [fst snd app].
  unfold complete_session_generation, edit_text, send_backup,
    bot_send_message, client_get_me, try_except, bind, ret, raise,
    mark_closed, update_data, write_db, log, emit.
  rewrite Hme. cbn [fst snd db]. unfold Db.save_session.
  rewrite Hstorage. cbn [Db.sqlite_opt_int]. rewrite Huser.
  cbn [andb fst snd db].
  destruct (refused env (TSessionGenerated _ _ _)) as [bad|];
    cbn [raising raise fst snd app].
  - destruct (refused env (TGenerationError _)) as [bad'|];
      cbn [raising raise fst snd app db user_data open_clients];
      rewrite ?data_of_insert;
      (split; [reflexivity |]); (split; [reflexivity |]);
      (split; [simpl; tauto |]);
      (split; [intros [_ Hn]%elem_of_difference; apply Hn;
               now apply elem_of_singleton |]);
      (split; [reflexivity |]); (split; reflexivity).
  - destruct (uid user =? MAIN_ADMIN_ID), (send_message env) as [e|];
      cbn [negb fst snd app db user_data open_clients];
      rewrite ?data_of_insert;
      (split; [reflexivity |]); (split; [reflexivity |]);
      (split; [simpl; tauto |]);
      (split; [intros [_ Hn]%elem_of_difference; apply Hn;
               now apply elem_of_singleton |]);
      (split; [reflexivity |]); (split; reflexivity).
Qed.

Lemma accepted_code_completes_witness :
  disconnects (trace_of calm (TextMessage alice "4 6 9 4 9" NotForwarded 41)
                        alice_awaiting_code) = [O].
Proof.
  exact (proj1 (proj2
    (accepted_code_completes calm alice "4 6 9 4 9" NotForwarded 41
       alice_awaiting_code O "+15550100" _ eq_refl eq_refl eq_refl eq_refl
       eq_refl eq_refl eq_refl eq_refl))).
Defined.







(** X25. A password sent while no client and number are stored is
    answered with the session-expired text: the provider is not called,
    the password prompt is disarmed and nothing else changes. *)
Theorem password_without_client_expires (env : Env) (user : User)
    (password : string) (fwd : Forward) (date : Z) (w : World)
    (Hgate : Db.is_admin (storage env GateCheck) (db w) (uid user) = true)
    (Hstate : state_of (data_of w (uid user)) = AwaitingTwoFactor)
    (Hflow : stored_flow (data_of w (uid user)) = None) :
  trace_of env (TextMessage user password fwd date) w =
    [Reply (uid user) TSessionExpired back_to_main_kb] /\
  expecting_2fa (data_of (world_after env (TextMessage user password fwd date)
                                      w) (uid user)) = false /\
  db (world_after env (TextMessage user password fwd date) w) = db w /\
  open_clients (world_after env (TextMessage user password fwd date) w) =
    open_clients w.
Proof.
  destruct (awaiting_2fa_flags _ Hstate) as [Hp [Hc H2]].
  enter_message Hgate. rewrite Hp, Hc, H2.
  unfold process_2fa_input, client_sign_in_password, try_except, bind,
    update_data, get_data, raising, raise, emit.
  cbn [negb fst snd]. rewrite data_of_insert.
  rewrite stored_flow_of_set_2fa, Hflow. cbn [fst snd app].
  rewrite !data_of_insert. repeat split.
Qed.

Lemma password_without_client_expires_witness :
  trace_of calm (TextMessage bob "hunter2" NotForwarded 55)
           bob_2fa_without_client =
    [Reply 1002 TSessionExpired back_to_main_kb].
Proof.
  exact (proj1
    (password_without_client_expires calm bob "hunter2" NotForwarded 55
       bob_2fa_without_client eq_refl eq_refl eq_refl)).
Defined.

(** X26. A provider exception at the code sign-in that is neither the
    invalid-code nor the password-needed one is only logged: after the
    progress note the sender gets no further message, the code prompt is
    disarmed, and the client stays stored and open. *)
Theorem sign_in_fault_is_silent (env : Env) (user : User) (text : string)
    (fwd : Forward) (date : Z) (w : World) (c : nat) (ph : string) (e : Exn)
    (Hgate : Db.is_admin (storage env GateCheck) (db w) (uid user) = true)
    (Hstate : state_of (data_of w (uid user)) = AwaitingCode)
    (Hdigits : PyStr.isdigit (clean_code text) = true)
    (Hflow : stored_flow (data_of w (uid user)) = Some (c, ph))
    (Hsign : sign_in env = Some e)
    (Hno2fa : exn_class e <> SessionPasswordNeededError)
    (Hnocode : exn_class e <> PhoneCodeInvalidError) :
  trace_of env (TextMessage user text fwd date) w =
    [Reply (uid user) TAuthenticating [];
     SignInCode c ph (clean_code text);
     Log Error "Error in process_code_input"] /\
  expecting_code (data_of (world_after env (TextMessage user text fwd date) w)
                          (uid user)) = false /\
  stored_flow (data_of (world_after env (TextMessage user text fwd date) w)
                       (uid user)) = Some (c, ph) /\
  open_clients (world_after env (TextMessage user text fwd date) w) =
    open_clients w.
Proof.
  destruct (awaiting_code_flags _ Hstate) as [Hp Hc].
  enter_message Hgate. rewrite Hp, Hc.
  unfold process_code_input, client_sign_in_code, try_except, bind,
    update_data, get_data, raising, raise, emit, log.
  rewrite Hdigits. cbn [negb fst snd]. rewrite data_of_insert.
  rewrite stored_flow_of_set_code, Hflow. cbn [fst snd app].
  rewrite Hsign. cbn [fst snd app].
  destruct (exn_class e); try (now elim Hno2fa); try (now elim Hnocode);
    unfold emit; cbn [fst snd app]; rewrite !data_of_insert; repeat split;
    trivial.
Qed.

Lemma sign_in_fault_is_silent_witness :
  trace_of (with_sign_in (Some network_down) calm)
           (TextMessage alice "4 6 9 4 9" NotForwarded 41)
           alice_awaiting_code =
    [Reply 1001 TAuthenticating []; SignInCode O "+15550100" "46949";
     Log Error "Error in process_code_input"].
Proof.
  assert (Hno2fa : exn_class network_down <> SessionPasswordNeededError)
    by discriminate.
  assert (Hnocode : exn_class network_down <> PhoneCodeInvalidError)
    by discriminate.
  exact (proj1
    (sign_in_fault_is_silent (with_sign_in (Some network_down) calm) alice
       "4 6 9 4 9" NotForwarded 41 alice_awaiting_code O "+15550100"
       network_down eq_refl eq_refl eq_refl eq_refl eq_refl Hno2fa Hnocode)).
Defined.




(* ===================================================================== *)
(** ** The file pusher                                                    *)
(* ===================================================================== *)

Lemma push_one_counts (r : GitHubPusher.Results) (f : GitHubPusher.LocalFile) :
  (GitHubPusher.success (GitHubPusher.push_one r f) +
   GitHubPusher.failed (GitHubPusher.push_one r f) +
   GitHubPusher.skipped (GitHubPusher.push_one r f) =
   S (GitHubPusher.success r + GitHubPusher.failed r +
      GitHubPusher.skipped r))%nat /\
  (GitHubPusher.success (GitHubPusher.push_one r f) +
   GitHubPusher.failed (GitHubPusher.push_one r f) =
   GitHubPusher.success r + GitHubPusher.failed r +
   (if GitHubPusher.too_large f then 0 else 1))%nat /\
  GitHubPusher.total (GitHubPusher.push_one r f) = GitHubPusher.total r.
Proof.
  unfold GitHubPusher.push_one.
  destruct (GitHubPusher.too_large f), (GitHubPusher.upload_file f);
    cbn; repeat split; lia.
Qed.

Lemma push_loop_counts (files : list GitHubPusher.LocalFile)
    (r : GitHubPusher.Results) :
  (GitHubPusher.success (fold_left GitHubPusher.push_one files r) +
   GitHubPusher.failed (fold_left GitHubPusher.push_one files r) +
   GitHubPusher.skipped (fold_left GitHubPusher.push_one files r) =
   GitHubPusher.success r + GitHubPusher.failed r + GitHubPusher.skipped r +
   length files)%nat /\
  (GitHubPusher.success (fold_left GitHubPusher.push_one files r) +
   GitHubPusher.failed (fold_left GitHubPusher.push_one files r) =
   GitHubPusher.success r + GitHubPusher.failed r +
   length (GitHubPusher.uploaded files))%nat /\
  GitHubPusher.total (fold_left GitHubPusher.push_one files r) =
    GitHubPusher.total r.
Proof.
  revert r. induction files as [|f files IH]; intros r; cbn [fold_left].
  - cbn. repeat split; lia.
  - destruct (IH (GitHubPusher.push_one r f)) as [H1 [H2 H3]].
    destruct (push_one_counts r f) as [H4 [H5 H6]].
    unfold GitHubPusher.uploaded in *. cbn [List.filter length].
    destruct (GitHubPusher.too_large f); cbn [negb length] in *;
      repeat split; lia.
Qed.

(** X28. [push_files] accounts for every file exactly once: success,
    failed and skipped add up to total, which is the number of files, and
    success plus failed is the number of files of at most 25 MB (or of
    unknown size), the only ones handed to [upload_file]. *)
Theorem push_files_accounts_for_every_file
    (files : list GitHubPusher.LocalFile) :
  (GitHubPusher.success (GitHubPusher.push_files files) +
   GitHubPusher.failed (GitHubPusher.push_files files) +
   GitHubPusher.skipped (GitHubPusher.push_files files) =
   GitHubPusher.total (GitHubPusher.push_files files))%nat /\
  GitHubPusher.total (GitHubPusher.push_files files) = length files /\
  (GitHubPusher.success (GitHubPusher.push_files files) +
   GitHubPusher.failed (GitHubPusher.push_files files) =
   length (GitHubPusher.uploaded files))%nat.
Proof.
  unfold GitHubPusher.push_files.
  destruct (push_loop_counts files
              {| GitHubPusher.success := O; GitHubPusher.failed := O;
                 GitHubPusher.skipped := O;
                 GitHubPusher.total := length files |}) as [H1 [H2 H3]].
  cbn in H1, H2, H3. repeat split; lia.
Qed.
